(** * magic_pdf/utils/office_to_pdf.py: locating LibreOffice, checking the
    Chinese fonts and converting an office document to PDF.

    The module is glue around the operating system: it probes the file
    system, reads the process environment and spawns two programs.  The
    embedding below keeps the three functions of the module as monadic
    programs over an explicit file-system state and a trace of the calls
    they make, with the answers of the operating system gathered in a
    [World] record. *)

From Stdlib Require Import Strings.String Strings.Ascii Strings.Byte NArith ZArith List Bool.
From stdpp Require Import base decidable list strings gmap.

Local Open Scope string_scope.
Local Open Scope list_scope.

(** ** Python strings and bytes *)

Module PyStr.

(** [sub in s] on [str]. *)
Fixpoint starts_with (sub s : string) : bool :=
  match sub, s with
  | EmptyString, _ => true
  | String a sub', String b s' => if Ascii.eqb a b then starts_with sub' s' else false
  | String _ _, EmptyString => false
  end.

Fixpoint contains (sub s : string) : bool :=
  if starts_with sub s then true
  else match s with
       | EmptyString => false
       | String _ s' => contains sub s'
       end.

(** Truth value of a [str]: the empty string is false. *)
Definition truthy (s : string) : bool :=
  match s with EmptyString => false | String _ _ => true end.

(** [sep.join(l)]. *)
Definition join (sep : string) (l : list string) : string := String.concat sep l.

(** [any(iterable)] over strings: true when some element is truthy. *)
Definition any_str (l : list string) : bool := existsb truthy l.

(** [sub] occurs in [s]: what [contains] decides. *)
Definition occurs_in (sub s : string) : Prop :=
  exists pre post : string, s = pre +:+ sub +:+ post.

End PyStr.

Module PyBytes.

Definition bytes := list byte.

Definition between (lo hi b : N) : bool := ((lo <=? b) && (b <=? hi))%N.

Definition cont (b : N) : bool := between 128 191 b.

(** Well-formed UTF-8 (the table of the Unicode standard), which is what
    the strict codec of [bytes.decode()] accepts. *)
Fixpoint utf8_ok (bs : list N) : bool :=
  match bs with
  | [] => true
  | b0 :: r0 =>
    if (b0 <? 128)%N then utf8_ok r0
    else if between 194 223 b0 then
      match r0 with
      | b1 :: r1 => cont b1 && utf8_ok r1
      | _ => false
      end
    else if between 224 239 b0 then
      match r0 with
      | b1 :: b2 :: r2 =>
        (if (b0 =? 224)%N then between 160 191 b1
         else if (b0 =? 237)%N then between 128 159 b1
         else cont b1)
        && cont b2 && utf8_ok r2
      | _ => false
      end
    else if between 240 244 b0 then
      match r0 with
      | b1 :: b2 :: b3 :: r3 =>
        (if (b0 =? 240)%N then between 144 191 b1
         else if (b0 =? 244)%N then between 128 143 b1
         else cont b1)
        && cont b2 && cont b3 && utf8_ok r3
      | _ => false
      end
    else false
  end.

(** [b.decode()]: a [str] is held as its UTF-8 encoding, so decoding keeps
    the bytes and only checks them; [None] stands for the
    [UnicodeDecodeError] of the strict codec. *)
Definition decode (b : bytes) : option string :=
  if utf8_ok (map Byte.to_N b) then Some (string_of_list_byte b) else None.

Definition encode (s : string) : bytes := list_byte_of_string s.

End PyBytes.

(** ** Path names *)

Module PyPath.
Import PyStr.

(** [os.sep] and [os.altsep]: a slash everywhere, a backslash on Windows
    as well. *)
Definition is_sep (win : bool) (c : ascii) : bool :=
  Ascii.eqb c "/" || (win && Ascii.eqb c "\").

Definition snoc (s : string) (c : ascii) : string := s +:+ String c EmptyString.

(** The components of a path name, empty ones included. *)
Fixpoint split_sep (win : bool) (acc s : string) : list string :=
  match s with
  | EmptyString => [acc]
  | String c rest =>
    if is_sep win c then acc :: split_sep win EmptyString rest
    else split_sep win (snoc acc c) rest
  end.

(** The directories above a path name, the nearest to the root first:
    the prefixes that end where a run of separators starts. *)
Fixpoint ancestors_from (win : bool) (acc : string) (after_sep : bool) (s : string)
  : list string :=
  match s with
  | EmptyString => []
  | String c rest =>
    (if is_sep win c && negb after_sep && truthy acc then [acc] else [])
      ++ ancestors_from win (snoc acc c) (is_sep win c) rest
  end.

Definition ancestors (win : bool) (p : string) : list string :=
  ancestors_from win EmptyString false p.

(** [Path(p).name]: the last component. *)
Definition name (win : bool) (p : string) : string :=
  List.last (split_sep win EmptyString p) EmptyString.

Definition starts_with_sep (win : bool) (s : string) : bool :=
  match s with
  | EmptyString => false
  | String c _ => is_sep win c
  end.

(** The anchor of a Windows path name and what follows it: a drive with
    or without its root ([C:\], [C:]), a root alone, the two separators
    that start a UNC or device name, or nothing. *)
Definition split_anchor (s : string) : string * string :=
  match s with
  | String a (String b rest) =>
    if is_sep true a then
      if is_sep true b then ("\\", rest) else ("\", String b rest)
    else if Ascii.eqb b ":" then
      match rest with
      | String c rest' =>
        if is_sep true c then (String a ":\", rest') else (String a ":", rest)
      | EmptyString => (String a ":", EmptyString)
      end
    else (EmptyString, s)
  | String a EmptyString =>
    if is_sep true a then ("\", EmptyString) else (EmptyString, s)
  | EmptyString => (EmptyString, EmptyString)
  end.

(** [str(Path(s))] on Windows, where [Path] is [WindowsPath]: the anchor,
    then the components joined by backslashes, without the empty ones and
    the dots.  A path is held by that string.  (A UNC or device name keeps
    its two leading separators and is otherwise treated like the rest;
    pathlib's finer parsing of the server and share is not followed.) *)
Definition WindowsPath (s : string) : string :=
  let parts :=
    List.filter (fun c => truthy c && negb (String.eqb c "."))
                (split_sep true EmptyString (snd (split_anchor s))) in
  let r := fst (split_anchor s) +:+ join "\" parts in
  if truthy r then r else ".".

(** A drive and nothing else: [C:]. *)
Definition drive_only (p : string) : bool :=
  match p with
  | String a (String b EmptyString) => negb (is_sep true a) && Ascii.eqb b ":"
  | _ => false
  end.

(** [p / rel] for a relative [rel]: below a bare drive the result is
    relative to that drive ([C:] / [x] is [C:x]), and below the bare root
    it starts at the root ([\] / [x] is [\x]). *)
Definition div (p rel : string) : string :=
  if drive_only p || String.eqb p "\" then WindowsPath (p +:+ rel)
  else WindowsPath (p +:+ "/" +:+ rel).

End PyPath.

(** ** Exceptions *)

(** The classes that this module raises or lets through.  [EnvironmentError]
    is Python's other name of [OSError]; all of them derive from
    [Exception]. *)
Inductive exn_class : Type :=
| OSError
| FileNotFoundError
| FileExistsError
| NotADirectoryError
| PermissionError
| CalledProcessError
| ValueError
| UnicodeDecodeError
| ConvertToPdfError.

Definition EnvironmentError : exn_class := OSError.

#[global] Instance exn_class_eq_dec : EqDecision exn_class.
Proof. solve_decision. Defined.

(** An exception object: its class and [str(e)]. *)
Record exn : Type := Exn { exn_class_of : exn_class; exn_str : string }.

Inductive outcome (A : Type) : Type :=
| Returned (a : A)
| Raised (e : exn).
Arguments Returned {A} a.
Arguments Raised {A} e.

(** ** The file system *)

(** Path names are taken as they are written: a name denotes itself, with
    no links and no case folding.  [mkdir_error] is what the host answers
    when it is asked to make a missing directory below an existing one:
    [None] when it makes it, the exception otherwise (no permission, a name
    that is too long, a full or read-only disk). *)
Record FS : Type :=
  { files : gset string;
    dirs : gset string;
    mkdir_error : string -> option exn }.

Definition isfile (f : FS) (p : string) : bool := bool_decide (p ∈ files f).
Definition isdir (f : FS) (p : string) : bool := bool_decide (p ∈ dirs f).
Definition exists_ (f : FS) (p : string) : bool := isfile f p || isdir f p.

Definition add_dir (p : string) (f : FS) : FS :=
  {| files := files f; dirs := {[ p ]} ∪ dirs f; mkdir_error := mkdir_error f |}.

(** A NUL character in a path name: every call of the [os] module that
    takes the name raises [ValueError] before the host is asked. *)
Definition has_nul (p : string) : bool :=
  PyStr.contains (String Ascii.zero EmptyString) p.

Definition embedded_null : exn := Exn ValueError "embedded null byte".

(** The exceptions of [mkdir].  Their texts are Python's for a name of
    printable characters without quotes or backslashes, which [repr] puts
    between single quotes as it is; the module never looks at them. *)

(** [mkdir(name)] where no such path can be: [ENOENT] on POSIX,
    [ERROR_PATH_NOT_FOUND] on Windows. *)
Definition no_such_path_error (win : bool) (name : string) : exn :=
  Exn FileNotFoundError
      (if win
       then "[WinError 3] The system cannot find the path specified: '" +:+ name +:+ "'"
       else "[Errno 2] No such file or directory: '" +:+ name +:+ "'").

(** [mkdir(child)] below a regular file: [ENOTDIR] on POSIX,
    [ERROR_PATH_NOT_FOUND] on Windows. *)
Definition blocked_error (win : bool) (child : string) : exn :=
  if has_nul child then embedded_null
  else if win then no_such_path_error true child
  else Exn NotADirectoryError ("[Errno 20] Not a directory: '" +:+ child +:+ "'").

(** [mkdir(name)] where [name] is there already. *)
Definition file_exists_error (win : bool) (name : string) : exn :=
  Exn FileExistsError
      (if win
       then "[WinError 183] Cannot create a file when that file already exists: '"
            +:+ name +:+ "'"
       else "[Errno 17] File exists: '" +:+ name +:+ "'").

(** Making the directories of a chain from the top: one that is there is
    kept, one that is missing is made unless the host refuses, and below a
    regular file the next [mkdir] fails.  What was made before a failure
    stays. *)
Fixpoint mkdir_chain (win : bool) (chain : list string) (f : FS)
  : outcome unit * FS :=
  match chain with
  | [] => (Returned tt, f)
  | a :: rest =>
    if has_nul a then (Raised embedded_null, f)
    else if isdir f a then mkdir_chain win rest f
    else if isfile f a then
      (Raised match rest with
              | child :: _ => blocked_error win child
              | [] => file_exists_error win a
              end, f)
    else match mkdir_error f a with
         | Some e => (Raised e, f)
         | None => mkdir_chain win rest (add_dir a f)
         end
  end.

(** [os.makedirs(name, exist_ok=...)]: its outcome and the file system it
    leaves. *)
Definition makedirs_run (win : bool) (name : string) (exist_ok : bool) (f : FS)
  : outcome unit * FS :=
  if isdir f name then
    (if exist_ok then Returned tt else Raised (file_exists_error win name), f)
  else if isfile f name then (Raised (file_exists_error win name), f)
  else if String.eqb name EmptyString then (Raised (no_such_path_error win name), f)
  else mkdir_chain win (PyPath.ancestors win name ++ [name]) f.

(** The file system after [os.makedirs] returned, or what it raised. *)
Definition makedirs_fs (win : bool) (name : string) (exist_ok : bool) (f : FS)
  : outcome FS :=
  match makedirs_run win name exist_ok f with
  | (Returned _, f') => Returned f'
  | (Raised e, _) => Raised e
  end.

(** ** The calls that reach the operating system *)

Inductive stdio : Type := PIPE | INHERIT.

Inductive event : Type :=
| EvIsFile (p : string)
| EvExists (p : string)
| EvMakedirs (name : string) (exist_ok : bool)
| EvGlob (dir pattern : string)
| EvWhich (cmd : string)
| EvSpawn (argv : list string) (stdout stderr : stdio).

Record CompletedProcess : Type :=
  { returncode : Z; stdout : PyBytes.bytes; stderr : PyBytes.bytes }.

(** What the host answers.  [which], [glob], [check_output] and [run] stand
    for [shutil.which], [Path.glob], [subprocess.check_output(..,
    encoding='utf-8')] and [subprocess.run(.., stdout=PIPE, stderr=PIPE)]:
    library calls whose result the module only consumes.  [check_output]
    raises when the program cannot be started, when it exits with a code
    other than zero and when its output is not UTF-8; [run] raises only
    when the program cannot be started. *)
Record World : Type :=
  { system_type : string;
    environ : gmap string string;
    which : string -> option string;
    glob : string -> string -> list string;
    check_output : list string -> outcome string;
    run : list string -> outcome CompletedProcess }.

Definition is_windows (w : World) : bool := String.eqb (system_type w) "Windows".

Record state : Type := { fs : FS; trace : list event }.

Definition log (e : event) (s : state) : state :=
  {| fs := fs s; trace := trace s ++ [e] |}.

(** ** The monad of the embedding: state and exceptions *)

Definition M (A : Type) : Type := state -> outcome A * state.

Definition ret {A} (a : A) : M A := fun s => (Returned a, s).

Definition raise {A} (e : exn) : M A := fun s => (Raised e, s).

Definition bind {A B} (m : M A) (k : A -> M B) : M B :=
  fun s => match m s with
           | (Returned a, s') => k a s'
           | (Raised e, s') => (Raised e, s')
           end.

(** [try: m  except Exception as e: h e]. *)
Definition try_except {A} (m : M A) (h : exn -> M A) : M A :=
  fun s => match m s with
           | (Returned a, s') => (Returned a, s')
           | (Raised e, s') => h e s'
           end.

Notation "x <- c1 ;; c2" := (bind c1 (fun x => c2))
  (at level 100, c1 at next level, right associativity).
Notation "c1 ;; c2" := (bind c1 (fun _ => c2))
  (at level 100, right associativity).

Section Module_office_to_pdf.

Context (w : World).

(** *** Library calls *)

Definition platform_system : M string := ret (system_type w).

(** [os.environ.get(key, default)]. *)
Definition os_environ_get (key dflt : string) : M string :=
  ret (default dflt (environ w !! key)).

Definition os_path_isfile (p : string) : M bool :=
  fun s => (Returned (isfile (fs s) p), log (EvIsFile p) s).

(** [os.path.exists(p)] and [Path.exists()] alike. *)
Definition os_path_exists (p : string) : M bool :=
  fun s => (Returned (exists_ (fs s) p), log (EvExists p) s).

Definition os_makedirs (name : string) (exist_ok : bool) : M unit :=
  fun s =>
    let s' := log (EvMakedirs name exist_ok) s in
    match makedirs_run (is_windows w) name exist_ok (fs s) with
    | (o, f') => (o, {| fs := f'; trace := trace s' |})
    end.

Definition shutil_which (cmd : string) : M (option string) :=
  fun s => (Returned (which w cmd), log (EvWhich cmd) s).

Definition Path_glob (dir pattern : string) : M (list string) :=
  fun s => (Returned (glob w dir pattern), log (EvGlob dir pattern) s).

(** [subprocess.check_output(argv, encoding='utf-8')]: the child's output
    is captured, its error stream is the parent's. *)
Definition subprocess_check_output (argv : list string) : M string :=
  fun s => (check_output w argv, log (EvSpawn argv PIPE INHERIT) s).

(** [subprocess.run(argv, stdout=PIPE, stderr=PIPE)]. *)
Definition subprocess_run_piped (argv : list string) : M CompletedProcess :=
  fun s => (run w argv, log (EvSpawn argv PIPE PIPE) s).

(** [b.decode()].  (Python's text goes on with the offending byte and its
    position.) *)
Definition bytes_decode (b : PyBytes.bytes) : M string :=
  match PyBytes.decode b with
  | Some text => ret text
  | None => raise (Exn UnicodeDecodeError "'utf-8' codec can't decode bytes")
  end.

(** *** The module *)

(** [ConvertToPdfError(msg)]: the constructor hands [msg] to [Exception],
    so [str(e)] is [msg]. *)
Definition ConvertToPdfError_ (msg : string) : exn := Exn ConvertToPdfError msg.

Definition REQUIRED_CHS_FONTS : list string :=
  ["SimSun"; "Microsoft YaHei"; "Noto Sans CJK SC"].

Definition missing_font_msg : string :=
  "Missing Chinese font. Please install at least one of: "
    +:+ PyStr.join ", " REQUIRED_CHS_FONTS.

Definition check_fonts_installed : M bool :=
  system_type <- platform_system ;;
  if String.eqb system_type "Windows" then
    let font_dir := PyPath.WindowsPath "C:/Windows/Fonts" in
    found <- Path_glob font_dir "*.ttf" ;;
    let installed_fonts := map (PyPath.name true) found in
    if PyStr.any_str
         (List.filter
            (fun font => existsb (fun f => PyStr.contains font f) installed_fonts)
            REQUIRED_CHS_FONTS)
    then ret true
    else raise (Exn EnvironmentError missing_font_msg)
  else
    try_except
      (output <- subprocess_check_output ["fc-list"; ":lang=zh"] ;;
       (* for font in REQUIRED_CHS_FONTS: if font in output: return True *)
       if existsb (fun font => PyStr.contains font output) REQUIRED_CHS_FONTS
       then ret true
       else raise (Exn EnvironmentError missing_font_msg))
      (fun e =>
         raise (Exn EnvironmentError
                    ("Font detection failed. Please install 'fontconfig' and fonts: "
                       +:+ exn_str e))).

(** [for path in possible_paths: if exists(path): return path]: the first
    candidate that exists, probing in order and no further. *)
Fixpoint first_existing (possible_paths : list string) : M (option string) :=
  match possible_paths with
  | [] => ret None
  | path :: rest =>
    b <- os_path_exists path ;;
    if b then ret (Some path) else first_existing rest
  end.

Definition soffice_exe : string := "LibreOffice/program/soffice.exe".

Definition windows_drives : list string := ["C:"; "D:"; "E:"; "F:"; "G:"; "H:"].

Definition windows_not_found_msg : string :=
  "LibreOffice not found. Please install LibreOffice from https://www.libreoffice.org/ "
  +:+ "or ensure soffice.exe is in your PATH environment variable.".

Definition LF : string := String (ascii_of_nat 10) EmptyString.

Definition unix_not_found_msg : string :=
  "LibreOffice not found. Please install it:" +:+ LF
  +:+ "  - Ubuntu/Debian: sudo apt-get install libreoffice" +:+ LF
  +:+ "  - CentOS/RHEL: sudo yum install libreoffice" +:+ LF
  +:+ "  - macOS: brew install libreoffice or download from https://www.libreoffice.org/"
  +:+ LF
  +:+ "  - Or ensure soffice is in your PATH environment variable.".

Definition unix_paths : list string :=
  ["/usr/bin/soffice";
   "/usr/local/bin/soffice";
   "/opt/libreoffice/program/soffice";
   "/Applications/LibreOffice.app/Contents/MacOS/soffice"].

(** Truth value of what [shutil.which] returns: [None] and the empty
    string are false. *)
Definition found_in_path (soffice_path : option string) : option string :=
  match soffice_path with
  | Some p => if PyStr.truthy p then Some p else None
  | None => None
  end.

Definition get_soffice_command : M string :=
  system_type <- platform_system ;;
  (* First check if soffice is in PATH *)
  soffice_path <- shutil_which "soffice" ;;
  match found_in_path soffice_path with
  | Some p => ret p
  | None =>
    if String.eqb system_type "Windows" then
      program_files <- os_environ_get "PROGRAMFILES" "C:/Program Files" ;;
      program_files_x86 <- os_environ_get "PROGRAMFILES(X86)" "C:/Program Files (x86)" ;;
      let possible_paths :=
        [ PyPath.div (PyPath.WindowsPath program_files) soffice_exe;
          PyPath.div (PyPath.WindowsPath program_files_x86) soffice_exe;
          PyPath.WindowsPath "C:/Program Files/LibreOffice/program/soffice.exe";
          PyPath.WindowsPath "C:/Program Files (x86)/LibreOffice/program/soffice.exe" ]
        ++ map (fun drive =>
                  PyPath.WindowsPath (drive +:+ "/LibreOffice/program/soffice.exe"))
               windows_drives in
      hit <- first_existing possible_paths ;;
      match hit with
      | Some path => ret path
      | None => raise (ConvertToPdfError_ windows_not_found_msg)
      end
    else
      try_except
        (hit <- first_existing unix_paths ;;
         match hit with
         | Some path => ret path
         | None => raise (ConvertToPdfError_ unix_not_found_msg)
         end)
        (fun e => raise (ConvertToPdfError_ ("Error locating LibreOffice: " +:+ exn_str e)))
  end.

Definition convert_file_to_pdf (input_path output_dir : string) : M unit :=
  is_file <- os_path_isfile input_path ;;
  if negb is_file then
    raise (Exn FileNotFoundError
               ("The input file " +:+ input_path +:+ " does not exist."))
  else
    os_makedirs output_dir true ;;
    check_fonts_installed ;;
    soffice_cmd <- get_soffice_command ;;
    let cmd :=
      [ soffice_cmd;
        "--headless";
        "--norestore";
        "--invisible";
        "--convert-to"; "pdf";
        "--outdir"; output_dir;
        input_path ] in
    process <- subprocess_run_piped cmd ;;
    if negb (returncode process =? 0)%Z then
      text <- bytes_decode (stderr process) ;;
      raise (ConvertToPdfError_ ("LibreOffice convert failed: " +:+ text))
    else ret tt.

End Module_office_to_pdf.

(** * The vocabulary of the statements *)

(** ** What the functions look at *)

Section Vocabulary.

Context (w : World).

Definition font_dir : string := PyPath.WindowsPath "C:/Windows/Fonts".

Definition fc_list_argv : list string := ["fc-list"; ":lang=zh"].

(** The one call by which the font check looks at the host. *)
Definition font_probe : event :=
  if is_windows w then EvGlob font_dir "*.ttf"
  else EvSpawn fc_list_argv PIPE INHERIT.

(** The file names of the [*.ttf] entries of the font directory. *)
Definition installed_font_names : list string :=
  map (PyPath.name true) (glob w font_dir "*.ttf").

Definition fontconfig_hint : string :=
  "Font detection failed. Please install 'fontconfig' and fonts: ".

Definition font_in (texts : list string) (font : string) : bool :=
  existsb (fun f => PyStr.contains font f) texts.

(** Some required family is found by the font check of the platform: in a
    file name of the font directory on Windows, in the output of [fc-list]
    elsewhere. *)
Definition font_detected : Prop :=
  exists font : string,
    In font REQUIRED_CHS_FONTS
    /\ if is_windows w
       then exists f, In f installed_font_names /\ PyStr.occurs_in font f
       else exists output,
           check_output w fc_list_argv = Returned output /\ PyStr.occurs_in font output.

(** The candidates that the loop looks at: up to the first that exists. *)
Fixpoint probed (f : FS) (l : list string) : list string :=
  match l with
  | [] => []
  | p :: rest => p :: (if exists_ f p then [] else probed f rest)
  end.

Definition trace_add (evs : list event) (s : state) : state :=
  {| fs := fs s; trace := trace s ++ evs |}.

(** ** The search of the locator, as one expression *)

Definition program_files : string :=
  PyPath.WindowsPath (default "C:/Program Files" (environ w !! "PROGRAMFILES")).

Definition program_files_x86 : string :=
  PyPath.WindowsPath (default "C:/Program Files (x86)" (environ w !! "PROGRAMFILES(X86)")).

(** The candidates of the Windows branch, as pathlib writes them. *)
Definition spec_windows_candidates : list string :=
  [ PyPath.div program_files soffice_exe;
    PyPath.div program_files_x86 soffice_exe;
    "C:\Program Files\LibreOffice\program\soffice.exe";
    "C:\Program Files (x86)\LibreOffice\program\soffice.exe";
    "C:\LibreOffice\program\soffice.exe";
    "D:\LibreOffice\program\soffice.exe";
    "E:\LibreOffice\program\soffice.exe";
    "F:\LibreOffice\program\soffice.exe";
    "G:\LibreOffice\program\soffice.exe";
    "H:\LibreOffice\program\soffice.exe" ].

Definition spec_unix_candidates : list string :=
  [ "/usr/bin/soffice";
    "/usr/local/bin/soffice";
    "/opt/libreoffice/program/soffice";
    "/Applications/LibreOffice.app/Contents/MacOS/soffice" ].

Definition spec_candidates : list string :=
  if is_windows w then spec_windows_candidates else spec_unix_candidates.

(** First the search path, then the candidates; the first that exists
    wins. *)
Definition spec_search_order (f : FS) : option string :=
  match found_in_path (which w "soffice") with
  | Some p => Some p
  | None => List.find (exists_ f) spec_candidates
  end.

(** The calls that the search makes, in order. *)
Definition spec_search_probes (f : FS) : list event :=
  EvWhich "soffice"
    :: match found_in_path (which w "soffice") with
       | Some _ => []
       | None => map EvExists (probed f spec_candidates)
       end.

Definition not_found_text : string :=
  if is_windows w then windows_not_found_msg
  else "Error locating LibreOffice: " +:+ unix_not_found_msg.

(** ** The calls of a conversion *)

Definition is_spawn (e : event) : bool :=
  match e with EvSpawn _ _ _ => true | _ => false end.

(** The process that the font check starts: none on Windows. *)
Definition font_spawn : list event :=
  if is_windows w then [] else [EvSpawn fc_list_argv PIPE INHERIT].

Context (input_path output_dir : string).

(** The command line of the conversion. *)
Definition soffice_argv (soffice_cmd : string) : list string :=
  [ soffice_cmd; "--headless"; "--norestore"; "--invisible";
    "--convert-to"; "pdf"; "--outdir"; output_dir; input_path ].

Definition spawn_event (soffice_cmd : string) : event :=
  EvSpawn (soffice_argv soffice_cmd) PIPE PIPE.

(** The first two calls of a run on an existing input. *)
Definition opening : list event :=
  [EvIsFile input_path; EvMakedirs output_dir true].

(** A run in which the input exists, the output directory is made, the
    font check returns and the executable is located as [soffice_cmd],
    which leaves the state [s3]. *)
Definition ready_to_spawn (s : state) (soffice_cmd : string) (s3 : state) : Prop :=
  isfile (fs s) input_path = true /\
  exists s1 s2 : state,
    os_makedirs w output_dir true (log (EvIsFile input_path) s) = (Returned tt, s1)
    /\ check_fonts_installed w s1 = (Returned true, s2)
    /\ get_soffice_command w s2 = (Returned soffice_cmd, s3).

(** The run from [s] to [s'] went on after [os.makedirs]: the font check
    was started. *)
Definition past_makedirs (s s' : state) : Prop :=
  exists rest,
    trace s' = trace s ++ opening ++ font_probe :: rest.

(** What the exit of the child is turned into. *)
Definition report (p : CompletedProcess) : outcome unit :=
  if negb (returncode p =? 0)%Z then
    match PyBytes.decode (stderr p) with
    | Some text => Raised (ConvertToPdfError_ ("LibreOffice convert failed: " +:+ text))
    | None => Raised (Exn UnicodeDecodeError "'utf-8' codec can't decode bytes")
    end
  else Returned tt.

(** The outcome of starting [soffice_cmd]. *)
Definition spawn_outcome (soffice_cmd : string) : outcome unit :=
  match run w (soffice_argv soffice_cmd) with
  | Returned p => report p
  | Raised e => Raised e
  end.

End Vocabulary.

(** The directories that [makedirs name] is about: [name] and the ones
    above it. *)
Definition chain_of (win : bool) (name : string) : list string :=
  PyPath.ancestors win name ++ [name].

(** The file system that [os.makedirs] leaves when it raises. *)
Definition makedirs_left (win : bool) (name : string) (f : FS) : FS :=
  snd (makedirs_run win name true f).

(** ** The words of the specification, on their own *)

(** A separator of path names: the slash, and the backslash on Windows. *)
Definition separator (win : bool) (c : ascii) : Prop :=
  c = "/"%char \/ (win = true /\ c = "\"%char).

(** [a] names a directory above [p]: [p] goes on after [a] with a
    separator, and [a] does not end in one. *)
Definition dir_above (win : bool) (a p : string) : Prop :=
  exists (body : string) (last c : ascii) (rest : string),
    a = body +:+ String last EmptyString
    /\ ~ separator win last
    /\ separator win c
    /\ p = a +:+ String c rest.

(** [output_dir] itself or a directory above it. *)
Definition on_the_way (win : bool) (output_dir a : string) : Prop :=
  a = output_dir \/ dir_above win a output_dir.

(** Nothing stands in the way of making [a]: no NUL in the name, no
    regular file of that name, and a host that makes it when it is
    missing. *)
Definition can_be_made (f : FS) (a : string) : Prop :=
  has_nul a = false
  /\ isfile f a = false
  /\ (isdir f a = false -> mkdir_error f a = None).

(** A directory name as the [PROGRAMFILES] variables hold it: a drive
    letter, a colon, and one or more components, each after a backslash
    ([C:\Program Files]). *)
Definition plain_char (c : ascii) : bool :=
  negb (Ascii.eqb c "/") && negb (Ascii.eqb c "\").

Definition plain_component (c : string) : bool :=
  negb (String.eqb c EmptyString) && negb (String.eqb c ".")
  && forallb plain_char (list_ascii_of_string c).

Definition plain_drive_dir (d : string) : Prop :=
  exists (letter : ascii) (comps : list string),
    plain_char letter = true
    /\ comps <> []
    /\ forallb plain_component comps = true
    /\ d = String letter (":\" +:+ String.concat "\" comps).

Definition newline : string := String "010"%char EmptyString.

Section Words.

Context (w : World).

(** The two variables, when the host sets them, hold plain directory
    names. *)
Definition env_plain : Prop :=
  forall d,
    environ w !! "PROGRAMFILES" = Some d \/ environ w !! "PROGRAMFILES(X86)" = Some d ->
    plain_drive_dir d.

(** The executable's name resolved via the search path. *)
Definition words_on_search_path : option string :=
  match which w "soffice" with
  | Some (String c rest) => Some (String c rest)
  | _ => None
  end.

Definition words_below (dir : string) : string :=
  dir +:+ "\LibreOffice\program\soffice.exe".

Definition words_program_files : string :=
  match environ w !! "PROGRAMFILES" with
  | Some d => d
  | None => "C:\Program Files"
  end.

Definition words_program_files_x86 : string :=
  match environ w !! "PROGRAMFILES(X86)" with
  | Some d => d
  | None => "C:\Program Files (x86)"
  end.

(** Program Files, Program Files (x86), and the same relative path under
    the drive letters C to H. *)
Definition words_windows_candidates : list string :=
  [ words_below words_program_files;
    words_below words_program_files_x86;
    "C:\Program Files\LibreOffice\program\soffice.exe";
    "C:\Program Files (x86)\LibreOffice\program\soffice.exe";
    "C:\LibreOffice\program\soffice.exe";
    "D:\LibreOffice\program\soffice.exe";
    "E:\LibreOffice\program\soffice.exe";
    "F:\LibreOffice\program\soffice.exe";
    "G:\LibreOffice\program\soffice.exe";
    "H:\LibreOffice\program\soffice.exe" ].

(** The standard Unix and macOS install paths. *)
Definition words_unix_candidates : list string :=
  [ "/usr/bin/soffice";
    "/usr/local/bin/soffice";
    "/opt/libreoffice/program/soffice";
    "/Applications/LibreOffice.app/Contents/MacOS/soffice" ].

Definition words_candidates : list string :=
  if String.eqb (system_type w) "Windows"
  then words_windows_candidates else words_unix_candidates.

(** First the search path, then the candidates of the platform; the first
    that exists wins. *)
Definition words_search_order (f : FS) : option string :=
  match words_on_search_path with
  | Some p => Some p
  | None => List.find (fun p => isfile f p || isdir f p) words_candidates
  end.

(** The calls of that search, in order. *)
Definition words_search_probes (f : FS) : list event :=
  EvWhich "soffice"
    :: match words_on_search_path with
       | Some _ => []
       | None => map EvExists (probed f words_candidates)
       end.

(** The installation guidance of the platform. *)
Definition words_guidance : string :=
  if String.eqb (system_type w) "Windows" then
    "Please install LibreOffice from https://www.libreoffice.org/ or ensure soffice.exe is in your PATH environment variable."
  else
    "Please install it:" +:+ newline
    +:+ "  - Ubuntu/Debian: sudo apt-get install libreoffice" +:+ newline
    +:+ "  - CentOS/RHEL: sudo yum install libreoffice" +:+ newline
    +:+ "  - macOS: brew install libreoffice or download from https://www.libreoffice.org/"
    +:+ newline
    +:+ "  - Or ensure soffice is in your PATH environment variable.".

(** The text of the error of a failed search. *)
Definition words_not_found : string :=
  if String.eqb (system_type w) "Windows" then
    "LibreOffice not found. " +:+ words_guidance
  else
    "Error locating LibreOffice: LibreOffice not found. " +:+ words_guidance.

End Words.

(** ** Hosts to run the module on *)

Module Hosts.

Definition completed (code : Z) (err : PyBytes.bytes) : CompletedProcess :=
  {| returncode := code; stdout := []; stderr := err |}.

(** A Linux host without [soffice] on the search path. *)
Definition linux (fc_list : outcome string) (soffice : outcome CompletedProcess)
  : World :=
  {| system_type := "Linux";
     environ := ∅;
     which := fun _ => None;
     glob := fun _ _ => [];
     check_output := fun _ => fc_list;
     run := fun _ => soffice |}.

(** A Windows host with the given [*.ttf] entries in its font directory. *)
Definition windows (fonts : list string) : World :=
  {| system_type := "Windows";
     environ := {[ "PROGRAMFILES" := "D:\Apps" ]};
     which := fun _ => None;
     glob := fun _ _ => fonts;
     check_output := fun _ => Raised (Exn FileNotFoundError "fc-list");
     run := fun _ => Returned (completed 0 []) |}.

Definition fc_noto : string :=
  "/usr/share/fonts/opentype/noto/NotoSansCJK-Regular.ttc: Noto Sans CJK SC:style=Regular".

Definition fc_other : string :=
  "/usr/share/fonts/truetype/wqy/wqy-zenhei.ttc: WenQuanYi Zen Hei:style=Regular".

Definition disk : FS :=
  {| files := {[ "/in.docx" ]} ∪ {[ "/usr/bin/soffice" ]};
     dirs := {[ "/tmp" ]}; mkdir_error := fun _ => None |}.

Definition empty_disk : FS := {| files := ∅; dirs := ∅; mkdir_error := fun _ => None |}.

(** A directory sits where [soffice] is looked for. *)
Definition soffice_is_a_directory : FS :=
  {| files := {[ "/in.docx" ]};
     dirs := {[ "/usr/local/bin/soffice" ]};
     mkdir_error := fun _ => None |}.

(** A regular file sits where the output directory is asked for. *)
Definition out_is_a_file : FS :=
  {| files := {[ "/in.docx" ]} ∪ {[ "/tmp/out/pdf" ]};
     dirs := {[ "/tmp" ]} ∪ {[ "/tmp/out" ]};
     mkdir_error := fun _ => None |}.

Definition boot (f : FS) : state := {| fs := f; trace := [] |}.

Definition in_docx : string := "/in.docx".
Definition missing_docx : string := "/missing.docx".
Definition out_pdf : string := "/tmp/out/pdf".

(** The font directory of a Windows host with one SimSun file. *)
Definition simsun_host : World := windows ["C:\Windows\Fonts\SimSunB.ttf"].

Definition bad_format : World :=
  linux (Returned fc_noto) (Returned (completed 1 (PyBytes.encode "bad format"))).

Definition converts : World :=
  linux (Returned fc_noto) (Returned (completed 0 [])).

(** The child writes bytes that are no UTF-8 text to its error stream. *)
Definition garbled : World :=
  linux (Returned fc_noto) (Returned (completed 1 [xff])).

Definition no_fonts : World :=
  linux (Returned fc_other) (Returned (completed 0 [])).

(** [soffice] is found but the host refuses to start it. *)
Definition not_startable : World :=
  linux (Returned fc_noto)
        (Raised (Exn PermissionError "[Errno 13] Permission denied: '/usr/bin/soffice'")).

(** [fc-list] is not installed. *)
Definition no_fc_list : World :=
  linux (Raised (Exn FileNotFoundError "[Errno 2] No such file or directory: 'fc-list'"))
        (Returned (completed 0 [])).

(** A Windows host with neither [PROGRAMFILES] variable set. *)
Definition bare_windows : World :=
  {| system_type := "Windows";
     environ := ∅;
     which := fun _ => None;
     glob := fun _ _ => ["C:\Windows\Fonts\SimSunB.ttf"];
     check_output := fun _ => Raised (Exn FileNotFoundError "fc-list");
     run := fun _ => Returned (completed 0 []) |}.

Definition disk_without_office : FS :=
  {| files := {[ "/in.docx" ]}; dirs := {[ "/tmp" ]}; mkdir_error := fun _ => None |}.


(** [soffice] is on the search path. *)
Definition on_path : World :=
  {| system_type := "Linux";
     environ := ∅;
     which := fun _ => Some "/opt/lo/program/soffice";
     glob := fun _ _ => [];
     check_output := fun _ => Returned fc_noto;
     run := fun _ => Returned (completed 0 []) |}.

(** A Windows disk with LibreOffice below [D:\Apps]. *)
Definition windows_disk : FS :=
  {| files := {[ "D:\Apps\LibreOffice\program\soffice.exe" ]};
     dirs := ∅;
     mkdir_error := fun _ => None |}.

(** The host will not make [/tmp/out]. *)
Definition read_only_disk : FS :=
  {| files := {[ "/in.docx" ]} ∪ {[ "/usr/bin/soffice" ]};
     dirs := {[ "/tmp" ]};
     mkdir_error := fun _ => Some (Exn OSError "[Errno 30] Read-only file system: '/tmp/out'") |}.

(** The state of a run on [w] from [boot f] once the output directory is
    made. *)
Definition at_fonts_on (w : World) (f : FS) : state :=
  snd (os_makedirs w out_pdf true (log (EvIsFile in_docx) (boot f))).

(** The states of a run on [w] from [boot disk]: once the output
    directory is made, after the font check, and when [soffice] is
    spawned. *)
Definition at_fonts (w : World) : state :=
  snd (os_makedirs w out_pdf true (log (EvIsFile in_docx) (boot disk))).

Definition at_search (w : World) : state :=
  snd (check_fonts_installed w (at_fonts w)).

Definition at_spawn (w : World) : state :=
  snd (get_soffice_command w (at_search w)).

End Hosts.

(** * Properties *)

(** ** Substrings *)

Module PyStrFacts.
Import PyStr.

Lemma append_cons (c : ascii) (s t : string) :
  String c s +:+ t = String c (s +:+ t).
Proof. reflexivity. Qed.

Lemma append_nil (t : string) : EmptyString +:+ t = t.
Proof. reflexivity. Qed.

Lemma append_empty_r (s : string) : s +:+ EmptyString = s.
Proof.
  induction s as [|c s IH]; [reflexivity|].
  now rewrite append_cons, IH.
Qed.

Lemma append_assoc (s t u : string) : (s +:+ t) +:+ u = s +:+ t +:+ u.
Proof.
  induction s as [|c s IH]; [reflexivity|].
  now rewrite !append_cons, IH.
Qed.

Lemma starts_with_iff (sub s : string) :
  starts_with sub s = true <-> exists post, s = sub +:+ post.
Proof.
  revert s; induction sub as [|a sub IH]; intros s; simpl.
  - split; [intros _; now exists s | reflexivity].
  - destruct s as [|b s]; simpl.
    + split; [discriminate | intros [post H]; discriminate].
    + destruct (Ascii.eqb_spec a b) as [->|Hne].
      * rewrite IH. split; intros [post H]; exists post.
        -- now rewrite H.
        -- now injection H.
      * split; [discriminate | intros [post H]; rewrite append_cons in H; congruence].
Qed.

Lemma contains_iff (sub s : string) :
  contains sub s = true <-> occurs_in sub s.
Proof.
  unfold occurs_in. induction s as [|c s IH]; simpl.
  - destruct (starts_with sub EmptyString) eqn:E.
    + split; [intros _|reflexivity].
      apply starts_with_iff in E as [post E]. now exists EmptyString, post.
    + split; [discriminate|].
      intros (pre & post & H). destruct pre; simpl in H.
      * assert (starts_with sub EmptyString = true)
          by (apply starts_with_iff; eauto).
        congruence.
      * discriminate.
  - destruct (starts_with sub (String c s)) eqn:E.
    + split; [intros _|reflexivity].
      apply starts_with_iff in E as [post E]. now exists EmptyString, post.
    + rewrite IH. split.
      * intros (pre & post & ->). now exists (String c pre), post.
      * intros (pre & post & H). destruct pre as [|c' pre]; simpl in H.
        -- assert (starts_with sub (String c s) = true)
             by (apply starts_with_iff; eauto).
           congruence.
        -- injection H as _ ->. eauto.
Qed.

Lemma contains_suffix (pre s : string) : contains s (pre +:+ s) = true.
Proof.
  apply contains_iff. exists pre, EmptyString.
  now rewrite append_empty_r.
Qed.

Lemma occurs_in_app_l (sub pre s : string) :
  occurs_in sub s -> occurs_in sub (pre +:+ s).
Proof.
  intros (p & q & ->). exists (pre +:+ p), q.
  now rewrite append_assoc.
Qed.

Lemma contains_app_l (sub pre s : string) :
  contains sub s = true -> contains sub (pre +:+ s) = true.
Proof. rewrite !contains_iff. apply occurs_in_app_l. Qed.

End PyStrFacts.

Import PyStr PyStrFacts.

(** ** What one call of each function does *)

Section Runs.

Context (w : World).

Lemma any_filter_required (P : string -> bool) :
  PyStr.any_str (List.filter P REQUIRED_CHS_FONTS) = existsb P REQUIRED_CHS_FONTS.
Proof.
  unfold REQUIRED_CHS_FONTS; simpl.
  destruct (P "SimSun"), (P "Microsoft YaHei"), (P "Noto Sans CJK SC"); reflexivity.
Qed.

Lemma check_fonts_windows (s : state) :
  is_windows w = true ->
  check_fonts_installed w s =
  ((if existsb (font_in (installed_font_names w)) REQUIRED_CHS_FONTS
    then Returned true
    else Raised (Exn EnvironmentError missing_font_msg)),
   log (font_probe w) s).
Proof.
  intros Hw. unfold font_probe, is_windows in *.
  unfold check_fonts_installed, bind, platform_system, ret, Path_glob.
  rewrite Hw, any_filter_required.
  fold font_dir. fold (installed_font_names w).
  unfold font_in.
  destruct (existsb _ REQUIRED_CHS_FONTS); reflexivity.
Qed.

Lemma check_fonts_unix (s : state) :
  is_windows w = false ->
  check_fonts_installed w s =
  (match check_output w fc_list_argv with
   | Returned output =>
     if existsb (fun font => PyStr.contains font output) REQUIRED_CHS_FONTS
     then Returned true
     else Raised (Exn EnvironmentError (fontconfig_hint +:+ missing_font_msg))
   | Raised e => Raised (Exn EnvironmentError (fontconfig_hint +:+ exn_str e))
   end,
   log (font_probe w) s).
Proof.
  intros Hw. unfold font_probe, is_windows in *.
  unfold check_fonts_installed, bind, platform_system, ret, try_except,
    subprocess_check_output, raise.
  rewrite Hw. fold fc_list_argv.
  destruct (check_output w fc_list_argv) as [output|e]; [|reflexivity].
  destruct (existsb _ REQUIRED_CHS_FONTS); reflexivity.
Qed.

(** The font check never touches the file system. *)
Lemma check_fonts_state (s : state) :
  snd (check_fonts_installed w s) = log (font_probe w) s.
Proof.
  destruct (is_windows w) eqn:Hw.
  - now rewrite check_fonts_windows.
  - now rewrite check_fonts_unix.
Qed.

Lemma trace_add_log (e : event) (evs : list event) (s : state) :
  trace_add evs (log e s) = trace_add (e :: evs) s.
Proof. unfold trace_add, log; simpl. now rewrite <- app_assoc. Qed.

Lemma log_trace_add (e : event) (evs : list event) (s : state) :
  log e (trace_add evs s) = trace_add (evs ++ [e]) s.
Proof. unfold trace_add, log; simpl. now rewrite app_assoc. Qed.

Lemma first_existing_run (l : list string) (s : state) :
  first_existing l s =
  (Returned (List.find (exists_ (fs s)) l),
   trace_add (map EvExists (probed (fs s) l)) s).
Proof.
  revert s; induction l as [|p rest IH]; intros s.
  - unfold trace_add; simpl. unfold ret. rewrite app_nil_r. now destruct s.
  - simpl. unfold bind, os_path_exists.
    destruct (exists_ (fs s) p) eqn:E.
    + reflexivity.
    + rewrite IH. simpl. now rewrite trace_add_log.
Qed.

Lemma get_soffice_command_run (s : state) :
  get_soffice_command w s =
  (match spec_search_order w (fs s) with
   | Some p => Returned p
   | None => Raised (ConvertToPdfError_ (not_found_text w))
   end,
   trace_add (spec_search_probes w (fs s)) s).
Proof.
  unfold get_soffice_command, spec_search_order, spec_search_probes,
    not_found_text, spec_candidates, is_windows.
  unfold bind at 1 2. unfold platform_system, ret at 1, shutil_which.
  destruct (found_in_path (which w "soffice")) as [p|].
  - reflexivity.
  - destruct (String.eqb (system_type w) "Windows").
    + unfold bind, os_environ_get, ret. rewrite first_existing_run.
      cbn [fs log]. rewrite trace_add_log.
      fold (program_files w) (program_files_x86 w).
      change (_ ++ map _ windows_drives) with (spec_windows_candidates w).
      destruct (List.find _ (spec_windows_candidates w)); reflexivity.
    + unfold try_except, bind. rewrite first_existing_run.
      cbn [fs log]. rewrite trace_add_log.
      change unix_paths with spec_unix_candidates.
      destruct (List.find _ spec_unix_candidates); reflexivity.
Qed.

End Runs.

(** ** Creating directories *)

Section Makedirs.

Lemma isfile_add_dir (a p : string) (f : FS) : isfile (add_dir a f) p = isfile f p.
Proof. reflexivity. Qed.

Lemma isdir_add_dir_same (a : string) (f : FS) : isdir (add_dir a f) a = true.
Proof. unfold isdir, add_dir; simpl. apply bool_decide_eq_true. set_solver. Qed.

Lemma isdir_add_dir_mono (a p : string) (f : FS) :
  isdir f p = true -> isdir (add_dir a f) p = true.
Proof.
  unfold isdir, add_dir; simpl. rewrite !bool_decide_eq_true. set_solver.
Qed.

Lemma isdir_add_dir_inv (a p : string) (f : FS) :
  isdir (add_dir a f) p = true -> p = a \/ isdir f p = true.
Proof.
  unfold isdir, add_dir; simpl. rewrite !bool_decide_eq_true.
  rewrite elem_of_union, elem_of_singleton. tauto.
Qed.

Lemma isdir_add_dir_other (a p : string) (f : FS) :
  a <> p -> isdir (add_dir a f) p = isdir f p.
Proof.
  intros Hne. unfold isdir, add_dir; simpl.
  apply bool_decide_ext. rewrite elem_of_union, elem_of_singleton.
  split; [intros [Heq|Hp]; [congruence | exact Hp] | now right].
Qed.

Context (win : bool).

(** Whatever its outcome, a walk down a chain keeps the regular files and
    the directories, and adds directories of the chain only. *)
Lemma mkdir_chain_frame (chain : list string) (f f' : FS) (o : outcome unit) :
  mkdir_chain win chain f = (o, f') ->
  files f' = files f
  /\ mkdir_error f' = mkdir_error f
  /\ (forall p, isdir f p = true -> isdir f' p = true)
  /\ (forall p, isdir f' p = true -> isdir f p = true \/ In p chain).
Proof.
  revert f; induction chain as [|a rest IH]; intros f H; simpl in H.
  - injection H as _ <-. auto.
  - destruct (has_nul a); [injection H as _ <-; auto|].
    destruct (isdir f a).
    { destruct (IH _ H) as (Hf & He & Hm & Hn). repeat split; auto.
      intros p Hp. destruct (Hn p Hp); [now left | right; now right]. }
    destruct (isfile f a); [injection H as _ <-; auto|].
    destruct (mkdir_error f a); [injection H as _ <-; auto|].
    destruct (IH _ H) as (Hf & He & Hm & Hn). repeat split; auto.
    + intros p Hp. apply Hm. now apply isdir_add_dir_mono.
    + intros p Hp. destruct (Hn p Hp) as [Hd|Hin]; [|right; now right].
      apply isdir_add_dir_inv in Hd as [->|Hd]; [right; now left | now left].
Qed.

(** When the walk returns, every directory of the chain is there. *)
Lemma mkdir_chain_returns (chain : list string) (f f' : FS) :
  mkdir_chain win chain f = (Returned tt, f') ->
  Forall (fun a => isdir f' a = true) chain.
Proof.
  revert f; induction chain as [|a rest IH]; intros f H; simpl in H.
  - constructor.
  - destruct (has_nul a); [discriminate|].
    destruct (isdir f a) eqn:Ed.
    { constructor; [|now apply (IH f)].
      now apply (mkdir_chain_frame _ _ _ _ H). }
    destruct (isfile f a); [discriminate|].
    destruct (mkdir_error f a); [discriminate|].
    constructor; [|now apply (IH (add_dir a f))].
    apply (mkdir_chain_frame _ _ _ _ H), isdir_add_dir_same.
Qed.

Lemma can_be_made_add_dir (a p : string) (f : FS) :
  can_be_made f p -> can_be_made (add_dir a f) p.
Proof.
  intros (Hn & Hf & He). repeat split; [exact Hn | exact Hf |].
  intros Hd. apply He.
  destruct (isdir f p) eqn:Ed; [|reflexivity].
  now rewrite (isdir_add_dir_mono a p f Ed) in Hd.
Qed.

(** The walk returns when nothing stands in the way. *)
Lemma mkdir_chain_makes (chain : list string) (f : FS) :
  Forall (can_be_made f) chain ->
  exists f', mkdir_chain win chain f = (Returned tt, f').
Proof.
  revert f; induction chain as [|a rest IH]; intros f H; simpl.
  - eauto.
  - apply Forall_cons in H as [(Hn & Hf & He) Hrest]. rewrite Hn.
    destruct (isdir f a) eqn:Ed; [now apply IH|].
    rewrite Hf, (He eq_refl). apply IH.
    eapply Forall_impl; [exact Hrest|]. intros p. apply can_be_made_add_dir.
Qed.

Context (name : string).

Lemma makedirs_fs_returned (exist_ok : bool) (f f' : FS) :
  makedirs_fs win name exist_ok f = Returned f' ->
  makedirs_run win name exist_ok f = (Returned tt, f').
Proof.
  unfold makedirs_fs.
  destruct (makedirs_run win name exist_ok f) as [[[]|e] f1]; [|discriminate].
  now injection 1 as ->.
Qed.

Lemma makedirs_fs_raised (exist_ok : bool) (f : FS) (e : exn) :
  makedirs_fs win name exist_ok f = Raised e ->
  fst (makedirs_run win name exist_ok f) = Raised e.
Proof.
  unfold makedirs_fs.
  destruct (makedirs_run win name exist_ok f) as [[[]|e1] f1]; [discriminate|].
  now injection 1 as ->.
Qed.

Lemma makedirs_there (f : FS) :
  isdir f name = true -> makedirs_fs win name true f = Returned f.
Proof. unfold makedirs_fs, makedirs_run. now intros ->. Qed.

(** Whatever its outcome, [os.makedirs] keeps the regular files and the
    directories, and adds directories of its chain only. *)
Lemma makedirs_run_frame (exist_ok : bool) (f f' : FS) (o : outcome unit) :
  makedirs_run win name exist_ok f = (o, f') ->
  files f' = files f
  /\ (forall p, isdir f p = true -> isdir f' p = true)
  /\ (forall p, isdir f' p = true -> isdir f p = true \/ In p (chain_of win name)).
Proof.
  unfold makedirs_run, chain_of.
  destruct (isdir f name); [injection 1 as _ <-; auto|].
  destruct (isfile f name); [injection 1 as _ <-; auto|].
  destruct (String.eqb name EmptyString); [injection 1 as _ <-; auto|].
  intros H. destruct (mkdir_chain_frame _ _ _ _ H) as (Hf & _ & Hm & Hn). auto.
Qed.

Lemma makedirs_returns (exist_ok : bool) (f f' : FS) :
  makedirs_fs win name exist_ok f = Returned f' ->
  isdir f' name = true /\ files f' = files f
  /\ (forall p, isdir f p = true -> isdir f' p = true).
Proof.
  intros H. apply makedirs_fs_returned in H.
  destruct (makedirs_run_frame _ _ _ _ H) as (Hf & Hm & _).
  split; [|auto]. revert H. unfold makedirs_run.
  destruct (isdir f name) eqn:Ed.
  { destruct exist_ok; [|discriminate]. now injection 1 as <-. }
  destruct (isfile f name); [discriminate|].
  destruct (String.eqb name EmptyString); [discriminate|].
  intros H. apply mkdir_chain_returns in H.
  apply Forall_app in H as [_ H]. now apply Forall_cons in H as [H _].
Qed.

Lemma makedirs_makes (f : FS) :
  isdir f name = false ->
  name <> EmptyString ->
  Forall (can_be_made f) (chain_of win name) ->
  exists f', makedirs_fs win name true f = Returned f'
             /\ Forall (fun a => isdir f' a = true) (chain_of win name).
Proof.
  unfold chain_of, makedirs_fs, makedirs_run. intros Ed Hne Hall. rewrite Ed.
  assert (Hleaf : can_be_made f name).
  { apply Forall_app in Hall as [_ H]. now apply Forall_cons in H as [H _]. }
  destruct Hleaf as (_ & -> & _).
  apply String.eqb_neq in Hne. rewrite Hne.
  destruct (mkdir_chain_makes _ _ Hall) as (f1 & Hrun).
  rewrite Hrun. exists f1. split; [reflexivity|].
  now apply mkdir_chain_returns in Hrun.
Qed.

End Makedirs.

(** ** One call of [convert_file_to_pdf] *)

Section Convert.

Context (w : World) (input_path output_dir : string).

Lemma convert_missing_input (s : state) :
  isfile (fs s) input_path = false ->
  convert_file_to_pdf w input_path output_dir s =
  (Raised (Exn FileNotFoundError
               ("The input file " +:+ input_path +:+ " does not exist.")),
   log (EvIsFile input_path) s).
Proof.
  intros H. unfold convert_file_to_pdf, bind at 1, os_path_isfile.
  now rewrite H.
Qed.

Lemma os_makedirs_run (name : string) (exist_ok : bool) (s : state) :
  os_makedirs w name exist_ok s
  = (fst (makedirs_run (is_windows w) name exist_ok (fs s)),
     {| fs := snd (makedirs_run (is_windows w) name exist_ok (fs s));
        trace := trace s ++ [EvMakedirs name exist_ok] |}).
Proof.
  unfold os_makedirs.
  now destruct (makedirs_run (is_windows w) name exist_ok (fs s)).
Qed.

Lemma os_makedirs_returned (name : string) (exist_ok : bool) (s : state) (f1 : FS) :
  makedirs_fs (is_windows w) name exist_ok (fs s) = Returned f1 ->
  os_makedirs w name exist_ok s
  = (Returned tt, {| fs := f1; trace := trace s ++ [EvMakedirs name exist_ok] |}).
Proof.
  intros H. rewrite os_makedirs_run. now rewrite (makedirs_fs_returned _ _ _ _ _ H).
Qed.

(** When [os.makedirs] raises, so does the call, and nothing follows. *)
Lemma convert_makedirs_raises (s : state) (e : exn) :
  isfile (fs s) input_path = true ->
  makedirs_fs (is_windows w) output_dir true (fs s) = Raised e ->
  convert_file_to_pdf w input_path output_dir s
  = (Raised e,
     {| fs := makedirs_left (is_windows w) output_dir (fs s);
        trace := trace s ++ opening input_path output_dir |}).
Proof.
  intros H Hm. unfold convert_file_to_pdf, bind at 1 2, os_path_isfile.
  rewrite H. cbn [negb]. rewrite os_makedirs_run. cbn [fs log trace].
  rewrite (makedirs_fs_raised _ _ _ _ _ Hm).
  unfold makedirs_left, opening. now rewrite <- app_assoc.
Qed.

Lemma convert_spawns (s : state) (soffice_cmd : string) (s3 : state) :
  ready_to_spawn w input_path output_dir s soffice_cmd s3 ->
  convert_file_to_pdf w input_path output_dir s =
  (match run w (soffice_argv input_path output_dir soffice_cmd) with
   | Returned p =>
     if negb (returncode p =? 0)%Z then
       match PyBytes.decode (stderr p) with
       | Some text =>
         Raised (ConvertToPdfError_ ("LibreOffice convert failed: " +:+ text))
       | None => Raised (Exn UnicodeDecodeError "'utf-8' codec can't decode bytes")
       end
     else Returned tt
   | Raised e => Raised e
   end,
   log (spawn_event input_path output_dir soffice_cmd) s3).
Proof.
  intros (Hin & s1 & s2 & Hmk & Hfont & Hloc).
  unfold convert_file_to_pdf, bind, os_path_isfile.
  rewrite Hin. cbn [negb]. rewrite Hmk, Hfont, Hloc.
  unfold subprocess_run_piped. fold (soffice_argv input_path output_dir soffice_cmd).
  fold (spawn_event input_path output_dir soffice_cmd).
  destruct (run w (soffice_argv input_path output_dir soffice_cmd)) as [p|e]; [|reflexivity].
  destruct (negb (returncode p =? 0)%Z); [|reflexivity].
  unfold bytes_decode. destruct (PyBytes.decode (stderr p)); reflexivity.
Qed.

(** Once the directory is made, the run goes on to the font check, and
    nothing after that changes the file system. *)
Lemma convert_after_makedirs (s : state) (f1 : FS) :
  isfile (fs s) input_path = true ->
  makedirs_fs (is_windows w) output_dir true (fs s) = Returned f1 ->
  exists (r : outcome unit) (rest : list event),
    convert_file_to_pdf w input_path output_dir s =
    (r, {| fs := f1; trace := trace s ++ opening input_path output_dir ++ font_probe w :: rest |}).
Proof.
  intros H Hm. unfold convert_file_to_pdf, bind at 1 2, os_path_isfile.
  rewrite H. cbn [negb].
  rewrite (os_makedirs_returned output_dir true (log (EvIsFile input_path) s) f1 Hm).
  cbn [trace log fs].
  set (s1 := {| fs := f1; trace := (trace s ++ [EvIsFile input_path])
                                     ++ [EvMakedirs output_dir true] |}).
  assert (Hs1 : forall rest,
             trace_add (font_probe w :: rest) s1 =
             {| fs := f1; trace := trace s ++ opening input_path output_dir ++ font_probe w :: rest |}).
  { intros rest. unfold trace_add, s1, opening; simpl.
    now rewrite <- !app_assoc. }
  unfold bind at 1.
  pose proof (check_fonts_state w s1) as Hst.
  destruct (check_fonts_installed w s1) as [[b|e] s2]; simpl in Hst; subst s2.
  - unfold bind at 1. rewrite get_soffice_command_run.
    rewrite trace_add_log.
    change (fs (log (font_probe w) s1)) with (fs s1).
    destruct (spec_search_order w (fs s1)) as [cmd|].
    + unfold bind at 1, subprocess_run_piped.
      match goal with
      | |- context [EvSpawn ?a PIPE PIPE] => set (ev := EvSpawn a PIPE PIPE)
      end.
      exists (match run w (soffice_argv input_path output_dir cmd) with
              | Returned p =>
                if negb (returncode p =? 0)%Z then
                  match PyBytes.decode (stderr p) with
                  | Some text =>
                    Raised (ConvertToPdfError_ ("LibreOffice convert failed: " +:+ text))
                  | None =>
                    Raised (Exn UnicodeDecodeError "'utf-8' codec can't decode bytes")
                  end
                else Returned tt
              | Raised e => Raised e
              end),
             (spec_search_probes w (fs s1) ++ [ev]).
      rewrite <- Hs1. fold (soffice_argv input_path output_dir cmd).
      replace (log ev (trace_add (font_probe w :: spec_search_probes w (fs s1)) s1))
        with (trace_add (font_probe w :: spec_search_probes w (fs s1) ++ [ev]) s1)
        by (now rewrite log_trace_add).
      destruct (run w (soffice_argv input_path output_dir cmd)) as [p|e]; [|reflexivity].
      destruct (negb (returncode p =? 0)%Z); [|reflexivity].
      unfold bind, bytes_decode. destruct (PyBytes.decode (stderr p)); reflexivity.
    + eexists _, (spec_search_probes w (fs s1)). now rewrite <- Hs1.
  - eexists _, []. rewrite <- Hs1. unfold trace_add, log; simpl. reflexivity.
Qed.

End Convert.

(** ** The whole of a run *)

Section Tail.

Context (w : World) (input_path output_dir : string).

(** The outcome of the font check is the host's: the state plays no part. *)
Lemma check_fonts_outcome (s s' : state) :
  fst (check_fonts_installed w s) = fst (check_fonts_installed w s').
Proof.
  destruct (is_windows w) eqn:Hw.
  - now rewrite !check_fonts_windows.
  - now rewrite !check_fonts_unix.
Qed.

(** A run on an existing input, once the output directory is made. *)
Lemma convert_tail (s : state) (f1 : FS) :
  isfile (fs s) input_path = true ->
  makedirs_fs (is_windows w) output_dir true (fs s) = Returned f1 ->
  let s1 := {| fs := f1; trace := trace s ++ opening input_path output_dir |} in
  convert_file_to_pdf w input_path output_dir s =
  match fst (check_fonts_installed w s) with
  | Raised e => (Raised e, trace_add [font_probe w] s1)
  | Returned _ =>
    match spec_search_order w f1 with
    | None =>
      (Raised (ConvertToPdfError_ (not_found_text w)),
       trace_add (font_probe w :: spec_search_probes w f1) s1)
    | Some cmd =>
      (spawn_outcome w input_path output_dir cmd,
       trace_add (font_probe w :: spec_search_probes w f1
                    ++ [spawn_event input_path output_dir cmd]) s1)
    end
  end.
Proof.
  intros H Hm s1.
  unfold convert_file_to_pdf, bind at 1 2, os_path_isfile.
  rewrite H. cbn [negb].
  rewrite (os_makedirs_returned w output_dir true (log (EvIsFile input_path) s) f1 Hm).
  cbn [trace log fs].
  replace {| fs := f1;
             trace := (trace s ++ [EvIsFile input_path])
                        ++ [EvMakedirs output_dir true] |}
    with s1 by (unfold s1, opening; now rewrite <- app_assoc).
  unfold bind at 1.
  rewrite (check_fonts_outcome s s1).
  pose proof (check_fonts_state w s1) as Hst.
  destruct (check_fonts_installed w s1) as [[b|e] s2]; simpl in Hst; subst s2;
    cbn [fst]; [|reflexivity].
  unfold bind at 1. rewrite get_soffice_command_run, trace_add_log.
  change (fs (log (font_probe w) s1)) with f1.
  destruct (spec_search_order w f1) as [cmd|]; [|reflexivity].
  unfold bind at 1, subprocess_run_piped, spawn_outcome, report.
  fold (soffice_argv input_path output_dir cmd).
  fold (spawn_event input_path output_dir cmd).
  rewrite log_trace_add. cbn [app].
  destruct (run w (soffice_argv input_path output_dir cmd)) as [p|e]; [|reflexivity].
  destruct (negb (returncode p =? 0)%Z); [|reflexivity].
  unfold bind, bytes_decode. destruct (PyBytes.decode (stderr p)); reflexivity.
Qed.

End Tail.

Lemma check_fonts_raises_class (w : World) (s : state) (e : exn) :
  fst (check_fonts_installed w s) = Raised e -> exn_class_of e = EnvironmentError.
Proof.
  destruct (is_windows w) eqn:Hw.
  - rewrite check_fonts_windows by exact Hw. cbn [fst].
    destruct (existsb _ REQUIRED_CHS_FONTS); [discriminate | now intros [= <-]].
  - rewrite check_fonts_unix by exact Hw. cbn [fst].
    destruct (check_output w fc_list_argv) as [output|e0]; [|now intros [= <-]].
    destruct (existsb _ REQUIRED_CHS_FONTS); [discriminate | now intros [= <-]].
Qed.

(** The outcome and the file system of a run once the directory is made. *)
Lemma convert_tail_outcome (w : World) (input_path output_dir : string)
      (s : state) (f1 : FS) :
  isfile (fs s) input_path = true ->
  makedirs_fs (is_windows w) output_dir true (fs s) = Returned f1 ->
  fst (convert_file_to_pdf w input_path output_dir s)
  = match fst (check_fonts_installed w s) with
    | Raised e => Raised e
    | Returned _ =>
      match spec_search_order w f1 with
      | None => Raised (ConvertToPdfError_ (not_found_text w))
      | Some cmd => spawn_outcome w input_path output_dir cmd
      end
    end
  /\ fs (snd (convert_file_to_pdf w input_path output_dir s)) = f1.
Proof.
  intros Hin Hmk. rewrite (convert_tail w input_path output_dir s f1 Hin Hmk).
  destruct (fst (check_fonts_installed w s)); [|split; reflexivity].
  destruct (spec_search_order w f1); split; reflexivity.
Qed.

(** ** Runs on the example hosts *)

Module HostRuns.
Import Hosts.

Example run_bad_format :
  fst (convert_file_to_pdf bad_format in_docx out_pdf (boot disk))
  = Raised (Exn ConvertToPdfError "LibreOffice convert failed: bad format").
Proof. vm_compute. reflexivity. Qed.

Example run_converts :
  let r := convert_file_to_pdf converts in_docx out_pdf (boot disk) in
  fst r = Returned tt /\ isdir (fs (snd r)) out_pdf = true.
Proof. vm_compute. split; reflexivity. Qed.

Example run_windows_case_sensitive :
  fst (check_fonts_installed (windows ["C:\Windows\Fonts\simsun.ttf"]) (boot disk))
  = Raised (Exn EnvironmentError
                "Missing Chinese font. Please install at least one of: SimSun, Microsoft YaHei, Noto Sans CJK SC").
Proof. vm_compute. reflexivity. Qed.

Example run_windows_locator :
  trace (snd (get_soffice_command (windows []) (boot disk)))
  = EvWhich "soffice"
    :: map EvExists
         [ "D:\Apps\LibreOffice\program\soffice.exe";
           "C:\Program Files (x86)\LibreOffice\program\soffice.exe";
           "C:\Program Files\LibreOffice\program\soffice.exe";
           "C:\Program Files (x86)\LibreOffice\program\soffice.exe";
           "C:\LibreOffice\program\soffice.exe";
           "D:\LibreOffice\program\soffice.exe";
           "E:\LibreOffice\program\soffice.exe";
           "F:\LibreOffice\program\soffice.exe";
           "G:\LibreOffice\program\soffice.exe";
           "H:\LibreOffice\program\soffice.exe" ].
Proof. vm_compute. reflexivity. Qed.

(** Existence is all the locator asks of a candidate. *)
Example run_locator_takes_a_directory :
  fst (get_soffice_command converts (boot soffice_is_a_directory))
  = Returned "/usr/local/bin/soffice".
Proof. vm_compute. reflexivity. Qed.

(** [exist_ok] covers a directory, not a regular file of that name. *)
Example run_output_dir_is_a_file :
  convert_file_to_pdf converts in_docx out_pdf (boot out_is_a_file)
  = (Raised (Exn FileExistsError "[Errno 17] File exists: '/tmp/out/pdf'"),
     {| fs := out_is_a_file;
        trace := [EvIsFile in_docx; EvMakedirs out_pdf true] |}).
Proof. vm_compute. reflexivity. Qed.

Example run_zero_exit_without_pdf :
  let r := convert_file_to_pdf converts in_docx out_pdf (boot disk) in
  fst r = Returned tt /\ exists_ (fs (snd r)) "/tmp/out/pdf/in.pdf" = false.
Proof. vm_compute. split; reflexivity. Qed.

End HostRuns.

(** ** The font check *)


Lemma font_in_iff (texts : list string) (font : string) :
  font_in texts font = true <-> exists f, In f texts /\ occurs_in font f.
Proof.
  unfold font_in. rewrite existsb_exists.
  split; intros (f & Hin & H); exists f; split; auto; now apply contains_iff.
Qed.

Lemma windows_fonts_iff (w : World) :
  existsb (font_in (installed_font_names w)) REQUIRED_CHS_FONTS = true
  <-> exists font f,
      In font REQUIRED_CHS_FONTS /\ In f (installed_font_names w) /\ occurs_in font f.
Proof.
  rewrite existsb_exists. split.
  - intros (font & Hin & H). apply font_in_iff in H as (f & Hf & Hocc). eauto.
  - intros (font & f & Hin & Hf & Hocc). exists font. split; [exact Hin|].
    apply font_in_iff. eauto.
Qed.

(** Away from Windows, a font list without any required family ends in the
    error of the handler, whatever [fc-list] printed. *)
Lemma missing_font_unix (w : World) (s : state) (output : string) :
  is_windows w = false ->
  check_output w fc_list_argv = Returned output ->
  existsb (fun font => PyStr.contains font output) REQUIRED_CHS_FONTS = false ->
  fst (check_fonts_installed w s)
  = Raised (Exn EnvironmentError (fontconfig_hint +:+ missing_font_msg)).
Proof.
  intros Hw Hout Hnone. rewrite check_fonts_unix by exact Hw.
  now rewrite Hout, Hnone.
Qed.

(** C1: on a host that is not Windows, where [fc-list] is launched, runs
    and prints a font list without any required family, the check fails
    with an [EnvironmentError] whose text names the three families, and
    that text is the fontconfig diagnostic: the error raised for the missing
    font is caught by the handler written for a failing [fc-list]. *)
Theorem C1_missing_font_gets_fontconfig_diagnostic :
  is_windows Hosts.no_fonts = false
  /\ check_output Hosts.no_fonts fc_list_argv = Returned Hosts.fc_other
  /\ existsb (fun font => PyStr.contains font Hosts.fc_other) REQUIRED_CHS_FONTS = false
  /\ fst (check_fonts_installed Hosts.no_fonts (Hosts.boot Hosts.disk))
     = Raised (Exn EnvironmentError
                   "Font detection failed. Please install 'fontconfig' and fonts: Missing Chinese font. Please install at least one of: SimSun, Microsoft YaHei, Noto Sans CJK SC")
  /\ Forall (fun font =>
               occurs_in font
                 "Font detection failed. Please install 'fontconfig' and fonts: Missing Chinese font. Please install at least one of: SimSun, Microsoft YaHei, Noto Sans CJK SC")
            REQUIRED_CHS_FONTS.
Proof.
  repeat split; try (vm_compute; reflexivity).
  unfold REQUIRED_CHS_FONTS.
  repeat constructor; apply contains_iff; vm_compute; reflexivity.
Qed.



(** C9: the check never returns [False]: it returns [True], and then a
    required family was detected, or it raises an [EnvironmentError]. *)
Theorem C9_font_check_true_or_raises (w : World) (s : state) :
  let r := fst (check_fonts_installed w s) in
  r <> Returned false
  /\ ((r = Returned true /\ font_detected w)
      \/ exists msg, r = Raised (Exn EnvironmentError msg)).
Proof.
  intros r. subst r. unfold font_detected.
  destruct (is_windows w) eqn:Hw.
  - rewrite check_fonts_windows by exact Hw. cbn [fst].
    destruct (existsb _ REQUIRED_CHS_FONTS) eqn:E.
    + split; [discriminate|]. left. split; [reflexivity|].
      apply windows_fonts_iff in E as (font & f & Hin & Hf & Hocc). eauto.
    + split; [discriminate|]. right. eauto.
  - rewrite check_fonts_unix by exact Hw. cbn [fst].
    destruct (check_output w fc_list_argv) as [output|e].
    + destruct (existsb _ REQUIRED_CHS_FONTS) eqn:E.
      * split; [discriminate|]. left. split; [reflexivity|].
        apply existsb_exists in E as (font & Hin & H).
        apply contains_iff in H. eauto.
      * split; [discriminate|]. right. eauto.
    + split; [discriminate|]. right. eauto.
Qed.

(** ** The executable locator *)

Lemma find_first {A} (P : A -> bool) (l : list A) (x : A) :
  List.find P l = Some x ->
  exists before after,
    l = before ++ x :: after
    /\ Forall (fun y => P y = false) before /\ P x = true.
Proof.
  induction l as [|a l IH]; simpl; [discriminate|].
  destruct (P a) eqn:E.
  - injection 1 as <-. exists [], l. repeat split; [constructor | exact E].
  - intros H. destruct (IH H) as (before & after & -> & Hb & Hx).
    exists (a :: before), after. repeat split; [|exact Hx].
    constructor; assumption.
Qed.

Lemma find_nothing {A} (P : A -> bool) (l : list A) :
  Forall (fun y => P y = false) l -> List.find P l = None.
Proof.
  induction 1 as [|a l Ha _ IH]; simpl; [reflexivity|]. now rewrite Ha.
Qed.

(** *** Plain directory names on Windows *)

Section PlainNames.

Lemma plain_char_not_sep (c : ascii) :
  plain_char c = true -> PyPath.is_sep true c = false.
Proof.
  unfold plain_char, PyPath.is_sep. cbn [andb].
  destruct (Ascii.eqb c "/"), (Ascii.eqb c "\"); cbn; congruence.
Qed.

Lemma split_sep_plain (c acc rest : string) :
  forallb plain_char (list_ascii_of_string c) = true ->
  PyPath.split_sep true acc (c +:+ rest) = PyPath.split_sep true (acc +:+ c) rest.
Proof.
  revert acc; induction c as [|ch c IH]; intros acc H.
  - now rewrite append_nil, append_empty_r.
  - cbn [list_ascii_of_string forallb] in H. apply andb_prop in H as [Hch Hc].
    rewrite append_cons. cbn [PyPath.split_sep].
    rewrite (plain_char_not_sep _ Hch), (IH _ Hc).
    unfold PyPath.snoc. now rewrite append_assoc, append_cons, append_nil.
Qed.

Lemma plain_component_chars (c : string) :
  plain_component c = true -> forallb plain_char (list_ascii_of_string c) = true.
Proof. unfold plain_component. intros H. now apply andb_prop in H as [_ H]. Qed.

Lemma plain_component_kept (c : string) :
  plain_component c = true ->
  PyStr.truthy c && negb (String.eqb c ".") = true.
Proof.
  unfold plain_component. intros H.
  apply andb_prop in H as [H _]. apply andb_prop in H as [Hne Hdot].
  rewrite Hdot, andb_true_r. destruct c; [discriminate | reflexivity].
Qed.

Lemma filter_plain (comps : list string) :
  forallb plain_component comps = true ->
  List.filter (fun c => PyStr.truthy c && negb (String.eqb c ".")) comps = comps.
Proof.
  induction comps as [|c comps IH]; [reflexivity|].
  cbn [forallb List.filter]. intros H. apply andb_prop in H as [Hc Hrest].
  now rewrite (plain_component_kept _ Hc), (IH Hrest).
Qed.

(** Splitting a joined list of plain components gives the components back,
    and goes on with what follows the next separator. *)
Lemma split_sep_concat (comps : list string) (c : string) (sep : ascii) (rest : string) :
  forallb plain_component (c :: comps) = true ->
  PyPath.is_sep true sep = true ->
  PyPath.split_sep true EmptyString
                   (String.concat "\" (c :: comps) +:+ String sep rest)
  = (c :: comps) ++ PyPath.split_sep true EmptyString rest.
Proof.
  revert c; induction comps as [|c2 comps IH]; intros c H Hsep.
  - cbn [forallb] in H. apply andb_prop in H as [Hc _].
    cbn [String.concat].
    rewrite (split_sep_plain _ _ _ (plain_component_chars _ Hc)), append_nil.
    cbn [PyPath.split_sep]. now rewrite Hsep.
  - cbn [forallb] in H. apply andb_prop in H as [Hc Hrest].
    change (String.concat "\" (c :: c2 :: comps))
      with (c +:+ "\" +:+ String.concat "\" (c2 :: comps)).
    rewrite !append_assoc.
    rewrite (split_sep_plain _ _ _ (plain_component_chars _ Hc)), append_nil.
    rewrite append_cons, append_nil. cbn [PyPath.split_sep].
    change (PyPath.is_sep true "\") with true. cbn iota.
    now rewrite (IH c2 Hrest Hsep).
Qed.

Lemma split_sep_concat_end (comps : list string) (c : string) :
  forallb plain_component (c :: comps) = true ->
  PyPath.split_sep true EmptyString (String.concat "\" (c :: comps)) = c :: comps.
Proof.
  revert c; induction comps as [|c2 comps IH]; intros c H.
  - cbn [forallb] in H. apply andb_prop in H as [Hc _].
    cbn [String.concat]. rewrite <- (append_empty_r c) at 1.
    rewrite (split_sep_plain _ _ _ (plain_component_chars _ Hc)), append_nil.
    reflexivity.
  - cbn [forallb] in H. apply andb_prop in H as [Hc Hrest].
    change (String.concat "\" (c :: c2 :: comps))
      with (c +:+ "\" +:+ String.concat "\" (c2 :: comps)).
    rewrite (split_sep_plain _ _ _ (plain_component_chars _ Hc)), append_nil.
    rewrite append_cons, append_nil. cbn [PyPath.split_sep].
    change (PyPath.is_sep true "\") with true. cbn iota.
    now rewrite (IH c2 Hrest).
Qed.

Lemma concat_app_cons (l : list string) (c x : string) (k : list string) :
  String.concat "\" ((c :: l) ++ x :: k)
  = String.concat "\" (c :: l) +:+ "\" +:+ String.concat "\" (x :: k).
Proof.
  revert c; induction l as [|c2 l IH]; intros c.
  - reflexivity.
  - change (String.concat "\" ((c :: c2 :: l) ++ x :: k))
      with (c +:+ "\" +:+ String.concat "\" ((c2 :: l) ++ x :: k)).
    change (String.concat "\" (c :: c2 :: l))
      with (c +:+ "\" +:+ String.concat "\" (c2 :: l)).
    now rewrite IH, !append_assoc.
Qed.

(** Below a plain directory name, pathlib's [/] is a concatenation. *)
Lemma div_plain (d : string) :
  plain_drive_dir d ->
  PyPath.div (PyPath.WindowsPath d) soffice_exe = words_below d.
Proof.
  intros (letter & comps & Hl & Hne & Hc & ->).
  destruct comps as [|c comps]; [congruence|].
  pose proof (plain_char_not_sep _ Hl) as Hsep.
  set (X := String.concat "\" (c :: comps)).
  assert (Hanchor : forall tail,
             PyPath.split_anchor (String letter (":\" +:+ X +:+ tail))
             = (String letter ":\", X +:+ tail)).
  { intros tail. unfold PyPath.split_anchor.
    rewrite !append_cons, append_nil. now rewrite Hsep. }
  assert (Hanchor0 :
            PyPath.split_anchor (String letter (":\" +:+ X)) = (String letter ":\", X)).
  { unfold PyPath.split_anchor. rewrite !append_cons, append_nil. now rewrite Hsep. }
  assert (Hself : PyPath.WindowsPath (String letter (":\" +:+ X))
                  = String letter (":\" +:+ X)).
  { unfold PyPath.WindowsPath. rewrite Hanchor0. cbn [fst snd]. unfold X.
    rewrite (split_sep_concat_end _ _ Hc), (filter_plain _ Hc).
    rewrite append_cons. reflexivity. }
  rewrite Hself. unfold PyPath.div.
  replace (PyPath.drive_only (String letter (":\" +:+ X))
           || String.eqb (String letter (":\" +:+ X)) "\") with false
    by (rewrite !append_cons; cbn; now destruct (Ascii.eqb letter "\")).
  unfold PyPath.WindowsPath, words_below.
  rewrite append_cons, append_assoc, Hanchor. cbn [fst snd].
  unfold X. change ("/" +:+ soffice_exe) with (String "/" soffice_exe).
  rewrite (split_sep_concat _ _ "/" soffice_exe Hc eq_refl).
  change (PyPath.split_sep true EmptyString soffice_exe)
    with ["LibreOffice"; "program"; "soffice.exe"].
  rewrite List.filter_app, (filter_plain _ Hc).
  cbn [List.filter PyStr.truthy String.eqb Ascii.eqb Bool.eqb negb andb].
  unfold PyStr.join. rewrite concat_app_cons.
  rewrite !append_cons, !append_assoc. reflexivity.
Qed.

End PlainNames.

(** *** The code's search and the words of the specification *)

Section Words_and_code.

Context (w : World).

Lemma found_in_path_words :
  found_in_path (which w "soffice") = words_on_search_path w.
Proof.
  unfold found_in_path, words_on_search_path.
  destruct (which w "soffice") as [[|c rest]|]; reflexivity.
Qed.

Lemma words_candidates_code :
  (is_windows w = true -> env_plain w) ->
  spec_candidates w = words_candidates w.
Proof.
  unfold spec_candidates, words_candidates, is_windows. intros Henv.
  destruct (String.eqb (system_type w) "Windows"); [|reflexivity].
  specialize (Henv eq_refl).
  unfold spec_windows_candidates, words_windows_candidates.
  unfold program_files, program_files_x86, words_program_files, words_program_files_x86.
  f_equal; [|f_equal].
  - destruct (environ w !! "PROGRAMFILES") as [d|] eqn:E; [|reflexivity].
    apply div_plain, Henv. now left.
  - destruct (environ w !! "PROGRAMFILES(X86)") as [d|] eqn:E; [|reflexivity].
    apply div_plain, Henv. now right.
Qed.

Lemma words_not_found_code : not_found_text w = words_not_found w.
Proof.
  unfold not_found_text, words_not_found, words_guidance, is_windows.
  destruct (String.eqb (system_type w) "Windows"); reflexivity.
Qed.

Lemma words_search_code (s : state) :
  (is_windows w = true -> env_plain w) ->
  get_soffice_command w s =
  (match words_search_order w (fs s) with
   | Some p => Returned p
   | None => Raised (Exn ConvertToPdfError (words_not_found w))
   end,
   {| fs := fs s; trace := trace s ++ words_search_probes w (fs s) |}).
Proof.
  intros Henv. rewrite get_soffice_command_run.
  unfold spec_search_order, spec_search_probes, words_search_order, words_search_probes.
  rewrite found_in_path_words, (words_candidates_code Henv), words_not_found_code.
  reflexivity.
Qed.

End Words_and_code.

(** C4: the locator follows the search order of the specification, stated
    in words of its own.  With the two Program Files variables of a Windows
    host holding plain directory names, its result is the executable found
    on the search path, else the first candidate of the platform that
    exists, whatever kind of file that is, else the error; the file system
    is left as it was and the only calls made are the look-up on the search
    path and the existence tests of the candidates, in their order, up to
    the one that is returned. *)
Theorem C4_search_order (w : World) (s : state) :
  (is_windows w = true -> env_plain w) ->
  get_soffice_command w s =
  (match words_search_order w (fs s) with
   | Some p => Returned p
   | None => Raised (Exn ConvertToPdfError (words_not_found w))
   end,
   {| fs := fs s; trace := trace s ++ words_search_probes w (fs s) |})
  /\ (forall p,
        words_search_order w (fs s) = Some p ->
        words_on_search_path w = Some p
        \/ (words_on_search_path w = None
            /\ exists before after,
                words_candidates w = before ++ p :: after
                /\ Forall (fun q => isfile (fs s) q = false /\ isdir (fs s) q = false)
                          before
                /\ (isfile (fs s) p = true \/ isdir (fs s) p = true)
                /\ words_search_probes w (fs s)
                   = EvWhich "soffice" :: map EvExists (before ++ [p]))).
Proof.
  intros Henv. split; [now apply words_search_code|].
  unfold words_search_order, words_search_probes.
  intros p H. destruct (words_on_search_path w) as [q|]; [now left|].
  right. split; [reflexivity|].
  apply find_first in H as (before & after & Hl & Hb & Hp).
  exists before, after. split; [exact Hl|]. split.
  { eapply Forall_impl; [exact Hb|]. intros q Hq. now apply orb_false_elim in Hq. }
  split; [now apply orb_prop in Hp|].
  rewrite Hl. f_equal. f_equal. clear Hl.
  induction Hb as [|a l Ha _ IH]; simpl.
  - unfold exists_. now rewrite Hp.
  - unfold exists_ at 1. now rewrite Ha, IH.
Qed.

Lemma simsun_host_env_plain : env_plain Hosts.simsun_host.
Proof.
  intros d [H|H]; vm_compute in H; [|discriminate].
  injection H as <-. exists "D"%char, ["Apps"]. repeat split. discriminate.
Defined.

Lemma C4_search_order_witness :
  (is_windows Hosts.simsun_host = true -> env_plain Hosts.simsun_host)
  /\ (is_windows Hosts.on_path = true -> env_plain Hosts.on_path)
  /\ get_soffice_command Hosts.simsun_host (Hosts.boot Hosts.windows_disk)
     = (Returned "D:\Apps\LibreOffice\program\soffice.exe",
        {| fs := Hosts.windows_disk;
           trace := [EvWhich "soffice";
                     EvExists "D:\Apps\LibreOffice\program\soffice.exe"] |})
  /\ get_soffice_command Hosts.on_path (Hosts.boot Hosts.empty_disk)
     = (Returned "/opt/lo/program/soffice",
        {| fs := Hosts.empty_disk; trace := [EvWhich "soffice"] |}).
Proof.
  assert (H1 : is_windows Hosts.simsun_host = true -> env_plain Hosts.simsun_host)
    by (intros _; exact simsun_host_env_plain).
  assert (H2 : is_windows Hosts.on_path = true -> env_plain Hosts.on_path)
    by (intros H; discriminate H).
  split; [exact H1|]. split; [exact H2|]. split.
  - exact (proj1 (C4_search_order Hosts.simsun_host (Hosts.boot Hosts.windows_disk) H1)).
  - exact (proj1 (C4_search_order Hosts.on_path (Hosts.boot Hosts.empty_disk) H2)).
Defined.

(** C5: when the search path yields nothing and no candidate of the
    platform exists, the locator raises a [ConvertToPdfError] whose text
    contains the installation guidance of the platform: on Windows the
    download address and the hint at [soffice.exe] and [PATH], elsewhere the
    commands for Ubuntu/Debian, CentOS/RHEL and macOS and the hint at
    [PATH]. *)
Theorem C5_not_found_guidance (w : World) (s : state) :
  words_on_search_path w = None ->
  (is_windows w = true -> env_plain w) ->
  Forall (fun p => isfile (fs s) p = false /\ isdir (fs s) p = false)
         (words_candidates w) ->
  fst (get_soffice_command w s)
  = Raised (Exn ConvertToPdfError
                (if String.eqb (system_type w) "Windows" then
                   "LibreOffice not found. Please install LibreOffice from https://www.libreoffice.org/ or ensure soffice.exe is in your PATH environment variable."
                 else
                   "Error locating LibreOffice: LibreOffice not found. Please install it:"
                   +:+ newline
                   +:+ "  - Ubuntu/Debian: sudo apt-get install libreoffice" +:+ newline
                   +:+ "  - CentOS/RHEL: sudo yum install libreoffice" +:+ newline
                   +:+ "  - macOS: brew install libreoffice or download from https://www.libreoffice.org/"
                   +:+ newline
                   +:+ "  - Or ensure soffice is in your PATH environment variable."))
  /\ exists msg,
      fst (get_soffice_command w s) = Raised (Exn ConvertToPdfError msg)
      /\ occurs_in (words_guidance w) msg.
Proof.
  intros Hpath Henv Hnone.
  rewrite (words_search_code w s Henv). cbn [fst].
  unfold words_search_order. rewrite Hpath.
  rewrite find_nothing.
  2:{ eapply Forall_impl; [exact Hnone|]. intros p [-> ->]. reflexivity. }
  split.
  - unfold words_not_found, words_guidance.
    destruct (String.eqb (system_type w) "Windows"); reflexivity.
  - exists (words_not_found w). split; [reflexivity|].
    unfold words_not_found.
    destruct (String.eqb (system_type w) "Windows");
      eexists _, EmptyString; now rewrite append_empty_r.
Qed.

Lemma C5_not_found_guidance_witness :
  words_on_search_path Hosts.converts = None
  /\ (is_windows Hosts.converts = true -> env_plain Hosts.converts)
  /\ Forall (fun p => isfile (fs (Hosts.boot Hosts.empty_disk)) p = false
                      /\ isdir (fs (Hosts.boot Hosts.empty_disk)) p = false)
            (words_candidates Hosts.converts)
  /\ fst (get_soffice_command Hosts.converts (Hosts.boot Hosts.empty_disk))
     = Raised (Exn ConvertToPdfError
                   ("Error locating LibreOffice: LibreOffice not found. Please install it:"
                    +:+ newline
                    +:+ "  - Ubuntu/Debian: sudo apt-get install libreoffice" +:+ newline
                    +:+ "  - CentOS/RHEL: sudo yum install libreoffice" +:+ newline
                    +:+ "  - macOS: brew install libreoffice or download from https://www.libreoffice.org/"
                    +:+ newline
                    +:+ "  - Or ensure soffice is in your PATH environment variable.")).
Proof.
  assert (Henv : is_windows Hosts.converts = true -> env_plain Hosts.converts)
    by (intros H; discriminate H).
  assert (H : Forall (fun p => isfile (fs (Hosts.boot Hosts.empty_disk)) p = false
                               /\ isdir (fs (Hosts.boot Hosts.empty_disk)) p = false)
                     (words_candidates Hosts.converts))
    by (repeat constructor).
  split; [reflexivity|]. split; [exact Henv|]. split; [exact H|].
  exact (proj1 (C5_not_found_guidance Hosts.converts (Hosts.boot Hosts.empty_disk)
                                      eq_refl Henv H)).
Defined.

(** ** The conversion *)

Lemma search_probes_spawn_nothing (w : World) (f : FS) :
  List.filter is_spawn (spec_search_probes w f) = [].
Proof.
  unfold spec_search_probes. cbn [List.filter is_spawn].
  destruct (found_in_path _); [reflexivity|].
  induction (probed f (spec_candidates w)) as [|p l IH]; [reflexivity | exact IH].
Qed.

Lemma font_probe_spawn (w : World) :
  List.filter is_spawn [font_probe w] = font_spawn w.
Proof. unfold font_probe, font_spawn. now destruct (is_windows w). Qed.

Lemma spawns_cons (e : event) (evs : list event) :
  List.filter is_spawn (e :: evs)
  = List.filter is_spawn [e] ++ List.filter is_spawn evs.
Proof. simpl. now destruct (is_spawn e). Qed.

Lemma ready_to_spawn_shape (w : World) (input_path output_dir : string)
      (s : state) (soffice_cmd : string) (s3 : state) :
  ready_to_spawn w input_path output_dir s soffice_cmd s3 ->
  exists f1,
    makedirs_fs (is_windows w) output_dir true (fs s) = Returned f1
    /\ spec_search_order w f1 = Some soffice_cmd
    /\ s3 = {| fs := f1;
               trace := trace s ++ opening input_path output_dir
                          ++ font_probe w :: spec_search_probes w f1 |}.
Proof.
  intros (Hin & s1 & s2 & Hmk & Hfont & Hloc).
  rewrite os_makedirs_run in Hmk. cbn [fs log trace] in Hmk.
  unfold makedirs_fs.
  destruct (makedirs_run (is_windows w) output_dir true (fs s)) as [[[]|e] f1];
    [|discriminate].
  injection Hmk as <-. exists f1. split; [reflexivity|].
  match type of Hfont with
  | check_fonts_installed w ?s1 = _ => pose proof (check_fonts_state w s1) as Hst
  end.
  rewrite Hfont in Hst. cbn [snd] in Hst. subst s2.
  rewrite get_soffice_command_run in Hloc. cbn [fs log] in Hloc.
  injection Hloc as Hres <-. split.
  - destruct (spec_search_order w f1); [now injection Hres as -> | discriminate].
  - unfold trace_add, log, opening; cbn [fs trace]. f_equal.
    now rewrite <- !app_assoc.
Qed.

(** C3: with an input that is no regular file the call raises
    [FileNotFoundError] at once: the file system is as before and the one
    call made is the test of the input itself, so no directory is made, no
    font is looked for and no process is started. *)
Theorem C3_missing_input_no_effect (w : World) (input_path output_dir : string)
        (s : state) :
  isfile (fs s) input_path = false ->
  let r := convert_file_to_pdf w input_path output_dir s in
  fst r = Raised (Exn FileNotFoundError
                      ("The input file " +:+ input_path +:+ " does not exist."))
  /\ fs (snd r) = fs s
  /\ trace (snd r) = trace s ++ [EvIsFile input_path].
Proof.
  intros H r. subst r. rewrite convert_missing_input by exact H.
  repeat split.
Qed.

Lemma C3_missing_input_no_effect_witness :
  isfile (fs (Hosts.boot Hosts.disk)) Hosts.missing_docx = false
  /\ fst (convert_file_to_pdf Hosts.converts Hosts.missing_docx Hosts.out_pdf
                              (Hosts.boot Hosts.disk))
     = Raised (Exn FileNotFoundError
                   ("The input file " +:+ Hosts.missing_docx +:+ " does not exist."))
  /\ fs (snd (convert_file_to_pdf Hosts.converts Hosts.missing_docx
                                  Hosts.out_pdf (Hosts.boot Hosts.disk)))
     = fs (Hosts.boot Hosts.disk)
  /\ trace (snd (convert_file_to_pdf Hosts.converts Hosts.missing_docx
                                     Hosts.out_pdf (Hosts.boot Hosts.disk)))
     = trace (Hosts.boot Hosts.disk) ++ [EvIsFile Hosts.missing_docx].
Proof.
  split; [vm_compute; reflexivity|].
  apply (C3_missing_input_no_effect Hosts.converts Hosts.missing_docx
                                    Hosts.out_pdf (Hosts.boot Hosts.disk)).
  vm_compute; reflexivity.
Defined.

(** C8: in a run where the input exists, the font check returns and the
    executable is located, the call starts the located executable with the
    arguments [--headless --norestore --invisible --convert-to pdf --outdir
    output_dir input_path], both its output streams captured; this is the
    last call of the run and, the font lister apart, the only process it
    starts. *)
Theorem C8_spawn_template (w : World) (input_path output_dir : string)
        (s : state) (soffice_cmd : string) (s3 : state) :
  ready_to_spawn w input_path output_dir s soffice_cmd s3 ->
  let s' := snd (convert_file_to_pdf w input_path output_dir s) in
  let spawn :=
    EvSpawn [ soffice_cmd; "--headless"; "--norestore"; "--invisible";
              "--convert-to"; "pdf"; "--outdir"; output_dir; input_path ]
            PIPE PIPE in
  s' = log spawn s3
  /\ exists evs,
      trace s' = trace s ++ evs
      /\ List.filter is_spawn evs = font_spawn w ++ [spawn].
Proof.
  intros Hready s' spawn. subst s'.
  rewrite (convert_spawns _ _ _ _ _ _ Hready). cbn [snd].
  split; [reflexivity|].
  apply ready_to_spawn_shape in Hready as (f1 & _ & _ & ->).
  exists (opening input_path output_dir
            ++ font_probe w :: spec_search_probes w f1 ++ [spawn]).
  split.
  - unfold log; cbn [fs trace]. now rewrite <- !app_assoc.
  - rewrite List.filter_app, spawns_cons, List.filter_app.
    rewrite font_probe_spawn, search_probes_spawn_nothing. reflexivity.
Qed.

(** The example runs from [Hosts.boot Hosts.disk] reach the spawn. *)
Ltac example_ready w :=
  split; [vm_compute; reflexivity|];
  exists (Hosts.at_fonts w), (Hosts.at_search w);
  repeat split; vm_compute; reflexivity.

Lemma C8_spawn_template_witness :
  ready_to_spawn Hosts.converts Hosts.in_docx Hosts.out_pdf
                 (Hosts.boot Hosts.disk) "/usr/bin/soffice"
                 (Hosts.at_spawn Hosts.converts)
  /\ snd (convert_file_to_pdf Hosts.converts Hosts.in_docx Hosts.out_pdf
                              (Hosts.boot Hosts.disk))
     = log (EvSpawn [ "/usr/bin/soffice"; "--headless"; "--norestore"; "--invisible";
                      "--convert-to"; "pdf"; "--outdir"; Hosts.out_pdf;
                      Hosts.in_docx ] PIPE PIPE)
           (Hosts.at_spawn Hosts.converts)
  /\ exists evs,
      trace (snd (convert_file_to_pdf Hosts.converts Hosts.in_docx
                                      Hosts.out_pdf (Hosts.boot Hosts.disk)))
      = trace (Hosts.boot Hosts.disk) ++ evs
      /\ List.filter is_spawn evs
         = font_spawn Hosts.converts
             ++ [EvSpawn [ "/usr/bin/soffice"; "--headless"; "--norestore";
                           "--invisible"; "--convert-to"; "pdf"; "--outdir";
                           Hosts.out_pdf; Hosts.in_docx ] PIPE PIPE].
Proof.
  assert (H : ready_to_spawn Hosts.converts Hosts.in_docx Hosts.out_pdf
                             (Hosts.boot Hosts.disk) "/usr/bin/soffice"
                             (Hosts.at_spawn Hosts.converts))
    by (example_ready Hosts.converts).
  split; [exact H|].
  exact (C8_spawn_template Hosts.converts Hosts.in_docx Hosts.out_pdf
                           (Hosts.boot Hosts.disk) "/usr/bin/soffice"
                           (Hosts.at_spawn Hosts.converts) H).
Defined.

(** C2: on [Hosts.garbled] the input exists, a font is listed, and the
    executable is located, spawned and exits with code 1, its captured
    error stream being the one byte [0xff].  The call reaches the [raise]
    of its last line, and decoding the error stream for the message raises
    [UnicodeDecodeError]: that exception leaves the call, and no
    [ConvertToPdfError] does. *)
Theorem C2_undecodable_stderr_escapes :
  ready_to_spawn Hosts.garbled Hosts.in_docx Hosts.out_pdf
                 (Hosts.boot Hosts.disk) "/usr/bin/soffice"
                 (Hosts.at_spawn Hosts.garbled)
  /\ run Hosts.garbled
         [ "/usr/bin/soffice"; "--headless"; "--norestore"; "--invisible";
           "--convert-to"; "pdf"; "--outdir"; Hosts.out_pdf; Hosts.in_docx ]
     = Returned (Hosts.completed 1 [xff])
  /\ returncode (Hosts.completed 1 [xff]) = 1%Z
  /\ fst (convert_file_to_pdf Hosts.garbled Hosts.in_docx Hosts.out_pdf
                              (Hosts.boot Hosts.disk))
     = Raised (Exn UnicodeDecodeError "'utf-8' codec can't decode bytes")
  /\ ~ (exists msg,
          fst (convert_file_to_pdf Hosts.garbled Hosts.in_docx Hosts.out_pdf
                                   (Hosts.boot Hosts.disk))
          = Raised (Exn ConvertToPdfError msg)).
Proof.
  split; [example_ready Hosts.garbled|].
  split; [reflexivity|]. split; [reflexivity|].
  split; [vm_compute; reflexivity|].
  intros [msg H]. vm_compute in H. discriminate.
Qed.

(** ** The output directory *)

Lemma stopped_at_makedirs (w : World) (input_path output_dir : string)
      (s s' : state) :
  trace s' = trace s ++ opening input_path output_dir ->
  ~ past_makedirs w input_path output_dir s s'.
Proof.
  intros Ht [rest H]. rewrite Ht in H.
  apply app_inv_head in H.
  rewrite <- (app_nil_r (opening input_path output_dir)) in H at 1.
  apply app_inv_head in H. discriminate.
Qed.

Lemma isfile_same_files (f f' : FS) (p : string) :
  files f' = files f -> isfile f' p = isfile f p.
Proof. unfold isfile. now intros ->. Qed.

(** *** The directories above a name *)

Section Above.

Context (win : bool).

Lemma is_sep_separator (c : ascii) :
  PyPath.is_sep win c = true <-> separator win c.
Proof.
  unfold PyPath.is_sep, separator.
  rewrite orb_true_iff, andb_true_iff, !Ascii.eqb_eq. tauto.
Qed.

Lemma not_sep_separator (c : ascii) :
  PyPath.is_sep win c = false <-> ~ separator win c.
Proof.
  rewrite <- is_sep_separator. now destruct (PyPath.is_sep win c).
Qed.

Lemma snoc_truthy (acc : string) (c : ascii) : PyStr.truthy (PyPath.snoc acc c) = true.
Proof. unfold PyPath.snoc. now destruct acc. Qed.

Lemma snoc_append (acc : string) (c : ascii) (rest : string) :
  PyPath.snoc acc c +:+ rest = acc +:+ String c rest.
Proof. unfold PyPath.snoc. now rewrite append_assoc, append_cons, append_nil. Qed.

(** Every directory above a name is in the list that is walked. *)
Lemma ancestors_from_complete (body acc : string) (after : bool)
      (last c : ascii) (rest : string) :
  ~ separator win last ->
  separator win c ->
  In ((acc +:+ body) +:+ String last EmptyString)
     (PyPath.ancestors_from win acc after (body +:+ String last (String c rest))).
Proof.
  intros Hlast Hc. apply not_sep_separator in Hlast. apply is_sep_separator in Hc.
  revert acc after; induction body as [|b body IH]; intros acc after.
  - rewrite append_nil, append_empty_r. cbn [PyPath.ancestors_from].
    rewrite Hlast, Hc. cbn [andb negb app]. rewrite snoc_truthy.
    left. reflexivity.
  - rewrite append_cons. cbn [PyPath.ancestors_from].
    apply in_or_app. right.
    replace (acc +:+ String b body) with (PyPath.snoc acc b +:+ body)
      by apply snoc_append.
    apply IH.
Qed.

Lemma ancestors_complete (a p : string) :
  dir_above win a p -> In a (PyPath.ancestors win p).
Proof.
  intros (body & last & c & rest & -> & Hlast & Hc & ->).
  unfold PyPath.ancestors.
  rewrite append_assoc, append_cons, append_nil.
  rewrite <- (append_nil body) at 1.
  now apply ancestors_from_complete.
Qed.

(** And the list holds nothing else. *)
Lemma ancestors_from_sound (s acc : string) (after : bool) (a : string) :
  (after = false ->
   acc = EmptyString
   \/ exists body last, acc = body +:+ String last EmptyString /\ ~ separator win last) ->
  In a (PyPath.ancestors_from win acc after s) ->
  dir_above win a (acc +:+ s).
Proof.
  revert acc after; induction s as [|c rest IH]; intros acc after Hinv Hin.
  - destruct Hin.
  - cbn [PyPath.ancestors_from] in Hin. apply in_app_or in Hin as [Hin|Hin].
    + destruct (PyPath.is_sep win c) eqn:Hc; [|destruct Hin].
      destruct after; [destruct Hin|].
      destruct (PyStr.truthy acc) eqn:Ht; [|destruct Hin].
      destruct Hin as [<-|[]].
      destruct (Hinv eq_refl) as [->|(body & last & -> & Hlast)]; [discriminate|].
      exists body, last, c, rest. repeat split; [exact Hlast|].
      now apply is_sep_separator.
    + rewrite <- snoc_append. apply (IH _ (PyPath.is_sep win c)); [|exact Hin].
      intros Hc. right. exists acc, c. split; [reflexivity|].
      now apply not_sep_separator.
Qed.

Lemma ancestors_sound (a p : string) :
  In a (PyPath.ancestors win p) -> dir_above win a p.
Proof.
  intros H. rewrite <- (append_nil p).
  apply (ancestors_from_sound p EmptyString false); [now left | exact H].
Qed.

Lemma chain_on_the_way (output_dir a : string) :
  In a (chain_of win output_dir) <-> on_the_way win output_dir a.
Proof.
  unfold chain_of, on_the_way. rewrite in_app_iff. split.
  - intros [H|[<-|[]]]; [right; now apply ancestors_sound | now left].
  - intros [->|H]; [right; now left | left; now apply ancestors_complete].
Qed.

End Above.

Lemma os_makedirs_inv (w : World) (name : string) (exist_ok : bool)
      (s s1 : state) :
  os_makedirs w name exist_ok s = (Returned tt, s1) ->
  makedirs_fs (is_windows w) name exist_ok (fs s) = Returned (fs s1).
Proof.
  rewrite os_makedirs_run. unfold makedirs_fs.
  destruct (makedirs_run (is_windows w) name exist_ok (fs s)) as [[[]|e] f1];
    [|discriminate].
  now injection 1 as <-.
Qed.

(** C6: on an existing input, an [output_dir] that is missing is made
    together with the missing directories above it, when nothing stands in
    their way: afterwards [output_dir] and every directory above it is a
    directory.  An [output_dir] that is there does not stop the call, which
    goes on to the font check with the file system as it was.  And when a
    first call went past [os.makedirs], so does a second call with the same
    [output_dir], on any host. *)
Theorem C6_output_dir_made_once (w w2 : World) (input_path output_dir : string)
        (s : state) :
  isfile (fs s) input_path = true ->
  let s' := snd (convert_file_to_pdf w input_path output_dir s) in
  (isdir (fs s) output_dir = false ->
   output_dir <> EmptyString ->
   (forall a, on_the_way (is_windows w) output_dir a -> can_be_made (fs s) a) ->
   (forall a, on_the_way (is_windows w) output_dir a -> isdir (fs s') a = true)
   /\ past_makedirs w input_path output_dir s s')
  /\ (isdir (fs s) output_dir = true ->
      fs s' = fs s /\ past_makedirs w input_path output_dir s s')
  /\ (past_makedirs w input_path output_dir s s' ->
      past_makedirs w2 input_path output_dir s'
                    (snd (convert_file_to_pdf w2 input_path output_dir s'))).
Proof.
  intros Hin s'. subst s'. split; [|split].
  - intros Hd Hne Hway.
    assert (Hall : Forall (can_be_made (fs s)) (chain_of (is_windows w) output_dir)).
    { apply List.Forall_forall. intros a Ha. apply Hway. now apply chain_on_the_way. }
    destruct (makedirs_makes (is_windows w) output_dir (fs s) Hd Hne Hall)
      as (f1 & Hmk & Hdirs).
    destruct (convert_after_makedirs w input_path output_dir s f1 Hin Hmk)
      as (r & rest & ->).
    cbn [snd fs]. split; [|now exists rest].
    intros a Ha. apply chain_on_the_way in Ha.
    rewrite List.Forall_forall in Hdirs. now apply Hdirs.
  - intros Hd.
    pose proof (makedirs_there (is_windows w) output_dir (fs s) Hd) as Hmk.
    destruct (convert_after_makedirs w input_path output_dir s _ Hin Hmk)
      as (r & rest & ->).
    split; [reflexivity | now exists rest].
  - intros Hpast.
    destruct (makedirs_fs (is_windows w) output_dir true (fs s)) as [f1|e] eqn:Hmk.
    + destruct (convert_after_makedirs w input_path output_dir s f1 Hin Hmk)
        as (r & rest & Hrun).
      rewrite Hrun in *. cbn [snd] in *.
      apply makedirs_returns in Hmk as (Hdir & Hfiles & _).
      set (s1 := {| fs := f1; trace := _ |}) in *.
      assert (Hin1 : isfile (fs s1) input_path = true)
        by (cbn [fs s1]; now rewrite (isfile_same_files _ _ _ Hfiles)).
      pose proof (makedirs_there (is_windows w2) output_dir (fs s1) Hdir) as Hmk2.
      destruct (convert_after_makedirs w2 input_path output_dir s1 _ Hin1 Hmk2)
        as (r2 & rest2 & ->).
      now exists rest2.
    + exfalso. revert Hpast. apply stopped_at_makedirs.
      now rewrite (convert_makedirs_raises w input_path output_dir s e Hin Hmk).
Qed.

Lemma disk_way_clear (a : string) :
  on_the_way (is_windows Hosts.converts) Hosts.out_pdf a ->
  can_be_made (fs (Hosts.boot Hosts.disk)) a.
Proof.
  intros Ha. apply chain_on_the_way in Ha.
  destruct Ha as [<-|[<-|[<-|[]]]]; repeat split.
Defined.

Lemma C6_output_dir_made_once_witness :
  isfile (fs (Hosts.boot Hosts.disk)) Hosts.in_docx = true
  /\ isdir (fs (Hosts.boot Hosts.disk)) "/tmp/out/pdf" = false
  /\ isdir (fs (Hosts.boot Hosts.disk)) "/tmp/out" = false
  /\ (forall a, on_the_way (is_windows Hosts.converts) "/tmp/out/pdf" a ->
                can_be_made (fs (Hosts.boot Hosts.disk)) a)
  /\ isdir (fs (snd (convert_file_to_pdf Hosts.converts Hosts.in_docx "/tmp/out/pdf"
                                         (Hosts.boot Hosts.disk))))
           "/tmp/out/pdf" = true
  /\ isdir (fs (snd (convert_file_to_pdf Hosts.converts Hosts.in_docx "/tmp/out/pdf"
                                         (Hosts.boot Hosts.disk))))
           "/tmp/out" = true
  /\ isdir (fs (snd (convert_file_to_pdf Hosts.converts Hosts.in_docx "/tmp/out/pdf"
                                         (Hosts.boot Hosts.disk))))
           "/tmp" = true
  /\ past_makedirs Hosts.bad_format Hosts.in_docx "/tmp/out/pdf"
                   (snd (convert_file_to_pdf Hosts.converts Hosts.in_docx "/tmp/out/pdf"
                                             (Hosts.boot Hosts.disk)))
                   (snd (convert_file_to_pdf
                           Hosts.bad_format Hosts.in_docx "/tmp/out/pdf"
                           (snd (convert_file_to_pdf Hosts.converts Hosts.in_docx
                                                     "/tmp/out/pdf"
                                                     (Hosts.boot Hosts.disk))))).
Proof.
  assert (Hin : isfile (fs (Hosts.boot Hosts.disk)) Hosts.in_docx = true)
    by (vm_compute; reflexivity).
  assert (Hout : isdir (fs (Hosts.boot Hosts.disk)) "/tmp/out/pdf" = false)
    by (vm_compute; reflexivity).
  assert (Hne : "/tmp/out/pdf" <> EmptyString) by discriminate.
  destruct (C6_output_dir_made_once Hosts.converts Hosts.bad_format
                                    Hosts.in_docx "/tmp/out/pdf"
                                    (Hosts.boot Hosts.disk) Hin)
    as (Hmade & _ & Htwice).
  destruct (Hmade Hout Hne disk_way_clear) as (Hdirs & Hpast).
  split; [exact Hin|]. split; [exact Hout|]. split; [vm_compute; reflexivity|].
  split; [exact disk_way_clear|].
  split; [apply Hdirs; now left|].
  split.
  { apply Hdirs. right. exists "/tmp/ou", "t"%char, "/"%char, "pdf".
    repeat split; [intros [H|[H _]]; discriminate | now left]. }
  split.
  { apply Hdirs. right. exists "/tm", "p"%char, "/"%char, "out/pdf".
    repeat split; [intros [H|[H _]]; discriminate | now left]. }
  exact (Htwice Hpast).
Defined.

(** C10: on an existing input, [os.makedirs] is the first call after the
    test of the input, ahead of the font check, the search and the spawn:
    whenever any call follows it, [output_dir] is a directory in the end.
    So it is when the call then fails in the font check, in the search for
    the executable, or on an exit code other than zero: no failure removes
    the directory. *)
Theorem C10_output_dir_outlives_failure (w : World) (input_path output_dir : string)
        (s : state) :
  isfile (fs s) input_path = true ->
  let r := convert_file_to_pdf w input_path output_dir s in
  (exists rest,
      trace (snd r)
      = trace s ++ EvIsFile input_path :: EvMakedirs output_dir true :: rest
      /\ (rest <> [] -> isdir (fs (snd r)) output_dir = true))
  /\ (forall s1 e,
        os_makedirs w output_dir true (log (EvIsFile input_path) s) = (Returned tt, s1) ->
        fst (check_fonts_installed w s1) = Raised e ->
        fst r = Raised e /\ isdir (fs (snd r)) output_dir = true)
  /\ (forall s1 s2 e,
        os_makedirs w output_dir true (log (EvIsFile input_path) s) = (Returned tt, s1) ->
        check_fonts_installed w s1 = (Returned true, s2) ->
        fst (get_soffice_command w s2) = Raised e ->
        fst r = Raised e /\ isdir (fs (snd r)) output_dir = true)
  /\ (forall soffice_cmd s3 p,
        ready_to_spawn w input_path output_dir s soffice_cmd s3 ->
        run w (soffice_argv input_path output_dir soffice_cmd) = Returned p ->
        returncode p <> 0%Z ->
        (exists e, fst r = Raised e) /\ isdir (fs (snd r)) output_dir = true).
Proof.
  intros Hin r. subst r.
  assert (Hafter : forall f1,
             makedirs_fs (is_windows w) output_dir true (fs s) = Returned f1 ->
             isdir (fs (snd (convert_file_to_pdf w input_path output_dir s)))
                   output_dir = true).
  { intros f1 Hmk.
    destruct (convert_tail_outcome w input_path output_dir s f1 Hin Hmk) as [_ ->].
    now apply makedirs_returns in Hmk as (Hdir & _). }
  split; [|split; [|split]].
  - destruct (makedirs_fs (is_windows w) output_dir true (fs s)) as [f1|e] eqn:Hmk.
    + pose proof (Hafter f1 eq_refl) as Hdir.
      destruct (convert_after_makedirs w input_path output_dir s f1 Hin Hmk)
        as (r & rest & Hrun).
      rewrite Hrun in *. cbn [snd trace] in *.
      exists (font_probe w :: rest). split; [reflexivity | now intros _].
    + rewrite (convert_makedirs_raises w input_path output_dir s e Hin Hmk).
      cbn [snd trace]. exists []. split; [reflexivity | congruence].
  - intros s1 e Hmk Hfont. apply os_makedirs_inv in Hmk. cbn [fs log] in Hmk.
    split; [|now apply (Hafter _ Hmk)].
    destruct (convert_tail_outcome w input_path output_dir s _ Hin Hmk) as [-> _].
    now rewrite (check_fonts_outcome w s s1), Hfont.
  - intros s1 s2 e Hmk Hfont Hloc.
    pose proof (check_fonts_state w s1) as Hst. rewrite Hfont in Hst.
    cbn [snd] in Hst. subst s2.
    apply os_makedirs_inv in Hmk. cbn [fs log] in Hmk.
    split; [|now apply (Hafter _ Hmk)].
    destruct (convert_tail_outcome w input_path output_dir s _ Hin Hmk) as [-> _].
    rewrite (check_fonts_outcome w s s1), Hfont. cbn [fst].
    rewrite get_soffice_command_run in Hloc. cbn [fst fs log] in Hloc.
    destruct (spec_search_order w (fs s1)); [discriminate|].
    injection Hloc as <-. reflexivity.
  - intros cmd s3 p Hready Hrun Hcode.
    pose proof Hready as (_ & s1 & s2 & Hmk & _).
    apply os_makedirs_inv in Hmk. cbn [fs log] in Hmk.
    split; [|now apply (Hafter _ Hmk)].
    rewrite (convert_spawns _ _ _ _ _ _ Hready), Hrun. cbn [fst].
    apply Z.eqb_neq in Hcode. rewrite Hcode. cbn [negb].
    destruct (PyBytes.decode (stderr p)); eauto.
Qed.

Lemma C10_output_dir_outlives_failure_witness :
  isfile (fs (Hosts.boot Hosts.disk)) Hosts.in_docx = true
  /\ os_makedirs Hosts.no_fonts Hosts.out_pdf true
                 (log (EvIsFile Hosts.in_docx) (Hosts.boot Hosts.disk))
     = (Returned tt, Hosts.at_fonts Hosts.no_fonts)
  /\ fst (check_fonts_installed Hosts.no_fonts (Hosts.at_fonts Hosts.no_fonts))
     = Raised (Exn EnvironmentError (fontconfig_hint +:+ missing_font_msg))
  /\ fst (convert_file_to_pdf Hosts.no_fonts Hosts.in_docx Hosts.out_pdf
                              (Hosts.boot Hosts.disk))
     = Raised (Exn EnvironmentError (fontconfig_hint +:+ missing_font_msg))
  /\ isdir (fs (snd (convert_file_to_pdf Hosts.no_fonts Hosts.in_docx
                                         Hosts.out_pdf
                                         (Hosts.boot Hosts.disk))))
           "/tmp/out/pdf" = true.
Proof.
  assert (Hin : isfile (fs (Hosts.boot Hosts.disk)) Hosts.in_docx = true)
    by (vm_compute; reflexivity).
  assert (Hmk : os_makedirs Hosts.no_fonts Hosts.out_pdf true
                            (log (EvIsFile Hosts.in_docx) (Hosts.boot Hosts.disk))
                = (Returned tt, Hosts.at_fonts Hosts.no_fonts))
    by (vm_compute; reflexivity).
  assert (Hfont : fst (check_fonts_installed Hosts.no_fonts
                                             (Hosts.at_fonts Hosts.no_fonts))
                  = Raised (Exn EnvironmentError (fontconfig_hint +:+ missing_font_msg)))
    by (vm_compute; reflexivity).
  split; [exact Hin|]. split; [exact Hmk|]. split; [exact Hfont|].
  destruct (C10_output_dir_outlives_failure Hosts.no_fonts Hosts.in_docx
                                            Hosts.out_pdf
                                            (Hosts.boot Hosts.disk) Hin)
    as (_ & Hkept & _).
  exact (Hkept _ _ Hmk Hfont).
Defined.

(** * Further properties of the module *)

(** ** Failures on the way to the spawn *)

(** A failing font check ends the run with the exception of the check
    itself: the search for the executable is not started and nothing but
    the font lister is spawned. *)
Theorem font_failure_stops_the_run (w : World) (input_path output_dir : string)
        (s : state) (f1 : FS) (e : exn) :
  isfile (fs s) input_path = true ->
  makedirs_fs (is_windows w) output_dir true (fs s) = Returned f1 ->
  fst (check_fonts_installed w s) = Raised e ->
  convert_file_to_pdf w input_path output_dir s =
  (Raised e,
   {| fs := f1;
      trace := trace s ++ opening input_path output_dir ++ [font_probe w] |}).
Proof.
  intros Hin Hmk Hfont.
  rewrite (convert_tail w input_path output_dir s f1 Hin Hmk), Hfont.
  unfold trace_add; cbn [fs trace]. now rewrite <- app_assoc.
Qed.

Lemma font_failure_stops_the_run_witness :
  isfile (fs (Hosts.boot Hosts.disk)) Hosts.in_docx = true
  /\ makedirs_fs (is_windows Hosts.no_fonts) Hosts.out_pdf true
                 (fs (Hosts.boot Hosts.disk))
     = Returned (fs (Hosts.at_fonts Hosts.no_fonts))
  /\ fst (check_fonts_installed Hosts.no_fonts (Hosts.boot Hosts.disk))
     = Raised (Exn EnvironmentError (fontconfig_hint +:+ missing_font_msg))
  /\ convert_file_to_pdf Hosts.no_fonts Hosts.in_docx Hosts.out_pdf
                         (Hosts.boot Hosts.disk)
     = (Raised (Exn EnvironmentError (fontconfig_hint +:+ missing_font_msg)),
        {| fs := fs (Hosts.at_fonts Hosts.no_fonts);
           trace := trace (Hosts.boot Hosts.disk)
                      ++ opening Hosts.in_docx Hosts.out_pdf
                      ++ [font_probe Hosts.no_fonts] |}).
Proof.
  assert (Hin : isfile (fs (Hosts.boot Hosts.disk)) Hosts.in_docx = true)
    by (vm_compute; reflexivity).
  assert (Hmk : makedirs_fs (is_windows Hosts.no_fonts) Hosts.out_pdf true
                            (fs (Hosts.boot Hosts.disk))
                = Returned (fs (Hosts.at_fonts Hosts.no_fonts)))
    by (vm_compute; reflexivity).
  assert (Hfont : fst (check_fonts_installed Hosts.no_fonts (Hosts.boot Hosts.disk))
                  = Raised (Exn EnvironmentError (fontconfig_hint +:+ missing_font_msg)))
    by (vm_compute; reflexivity).
  split; [exact Hin|]. split; [exact Hmk|]. split; [exact Hfont|].
  exact (font_failure_stops_the_run Hosts.no_fonts Hosts.in_docx Hosts.out_pdf
                                    (Hosts.boot Hosts.disk) _ _ Hin Hmk Hfont).
Defined.

(** When the fonts are there and the locator fails on the file system
    that [os.makedirs] left, the run ends with the exception of the
    locator, and the conversion process is never started. *)
Theorem locator_failure_spawns_nothing (w : World) (input_path output_dir : string)
        (s : state) (f1 : FS) (st : state) (e : exn) :
  isfile (fs s) input_path = true ->
  makedirs_fs (is_windows w) output_dir true (fs s) = Returned f1 ->
  fst (check_fonts_installed w s) = Returned true ->
  fs st = f1 ->
  fst (get_soffice_command w st) = Raised e ->
  let r := convert_file_to_pdf w input_path output_dir s in
  fst r = Raised e
  /\ fs (snd r) = f1
  /\ exists evs,
      trace (snd r) = trace s ++ evs
      /\ List.filter is_spawn evs = font_spawn w.
Proof.
  intros Hin Hmk Hfont Hst Hloc r. subst r.
  rewrite (convert_tail w input_path output_dir s f1 Hin Hmk), Hfont.
  rewrite get_soffice_command_run, Hst in Hloc. cbn [fst] in Hloc.
  destruct (spec_search_order w f1) as [cmd|]; [discriminate|].
  injection Hloc as <-. cbn [fst snd]. split; [reflexivity|]. split; [reflexivity|].
  exists (opening input_path output_dir ++ font_probe w :: spec_search_probes w f1).
  split.
  - unfold trace_add; cbn [fs trace]. now rewrite <- app_assoc.
  - rewrite List.filter_app, spawns_cons.
    rewrite font_probe_spawn, search_probes_spawn_nothing.
    cbn [List.filter is_spawn opening app]. now rewrite app_nil_r.
Qed.

Lemma locator_failure_spawns_nothing_witness :
  isfile (fs (Hosts.boot Hosts.disk_without_office)) Hosts.in_docx = true
  /\ makedirs_fs (is_windows Hosts.converts) Hosts.out_pdf true
                 (fs (Hosts.boot Hosts.disk_without_office))
     = Returned (fs (Hosts.at_fonts_on Hosts.converts Hosts.disk_without_office))
  /\ fst (check_fonts_installed Hosts.converts (Hosts.boot Hosts.disk_without_office))
     = Returned true
  /\ fst (get_soffice_command
            Hosts.converts
            (Hosts.at_fonts_on Hosts.converts Hosts.disk_without_office))
     = Raised (ConvertToPdfError_ (not_found_text Hosts.converts))
  /\ fst (convert_file_to_pdf Hosts.converts Hosts.in_docx Hosts.out_pdf
                              (Hosts.boot Hosts.disk_without_office))
     = Raised (ConvertToPdfError_ (not_found_text Hosts.converts))
  /\ exists evs,
      trace (snd (convert_file_to_pdf Hosts.converts Hosts.in_docx Hosts.out_pdf
                                      (Hosts.boot Hosts.disk_without_office)))
      = trace (Hosts.boot Hosts.disk_without_office) ++ evs
      /\ List.filter is_spawn evs = font_spawn Hosts.converts.
Proof.
  assert (Hin : isfile (fs (Hosts.boot Hosts.disk_without_office)) Hosts.in_docx = true)
    by (vm_compute; reflexivity).
  assert (Hmk : makedirs_fs (is_windows Hosts.converts) Hosts.out_pdf true
                            (fs (Hosts.boot Hosts.disk_without_office))
                = Returned (fs (Hosts.at_fonts_on Hosts.converts
                                                  Hosts.disk_without_office)))
    by (vm_compute; reflexivity).
  assert (Hfont : fst (check_fonts_installed Hosts.converts
                                             (Hosts.boot Hosts.disk_without_office))
                  = Returned true)
    by (vm_compute; reflexivity).
  assert (Hloc : fst (get_soffice_command
                        Hosts.converts
                        (Hosts.at_fonts_on Hosts.converts Hosts.disk_without_office))
                 = Raised (ConvertToPdfError_ (not_found_text Hosts.converts)))
    by (vm_compute; reflexivity).
  split; [exact Hin|]. split; [exact Hmk|]. split; [exact Hfont|].
  split; [exact Hloc|].
  destruct (locator_failure_spawns_nothing
              Hosts.converts Hosts.in_docx Hosts.out_pdf
              (Hosts.boot Hosts.disk_without_office)
              (fs (Hosts.at_fonts_on Hosts.converts Hosts.disk_without_office))
              (Hosts.at_fonts_on Hosts.converts Hosts.disk_without_office)
              _ Hin Hmk Hfont eq_refl Hloc)
    as (Hres & _ & Hev).
  split; [exact Hres | exact Hev].
Defined.

(** An executable that is located and cannot be started: what
    [subprocess.run] raises leaves the call as it is, not as a
    [ConvertToPdfError]. *)
Theorem launch_failure_is_not_wrapped (w : World) (input_path output_dir : string)
        (s : state) (soffice_cmd : string) (s3 : state) (e : exn) :
  ready_to_spawn w input_path output_dir s soffice_cmd s3 ->
  run w (soffice_argv input_path output_dir soffice_cmd) = Raised e ->
  convert_file_to_pdf w input_path output_dir s
  = (Raised e, log (spawn_event input_path output_dir soffice_cmd) s3).
Proof.
  intros Hready Hrun.
  now rewrite (convert_spawns _ _ _ _ _ _ Hready), Hrun.
Qed.

Lemma launch_failure_is_not_wrapped_witness :
  ready_to_spawn Hosts.not_startable Hosts.in_docx Hosts.out_pdf
                 (Hosts.boot Hosts.disk) "/usr/bin/soffice"
                 (Hosts.at_spawn Hosts.not_startable)
  /\ run Hosts.not_startable
         (soffice_argv Hosts.in_docx Hosts.out_pdf "/usr/bin/soffice")
     = Raised (Exn PermissionError "[Errno 13] Permission denied: '/usr/bin/soffice'")
  /\ convert_file_to_pdf Hosts.not_startable Hosts.in_docx Hosts.out_pdf
                         (Hosts.boot Hosts.disk)
     = (Raised (Exn PermissionError "[Errno 13] Permission denied: '/usr/bin/soffice'"),
        log (spawn_event Hosts.in_docx Hosts.out_pdf "/usr/bin/soffice")
            (Hosts.at_spawn Hosts.not_startable)).
Proof.
  assert (H : ready_to_spawn Hosts.not_startable Hosts.in_docx Hosts.out_pdf
                             (Hosts.boot Hosts.disk) "/usr/bin/soffice"
                             (Hosts.at_spawn Hosts.not_startable))
    by (example_ready Hosts.not_startable).
  split; [exact H|]. split; [reflexivity|].
  exact (launch_failure_is_not_wrapped
           Hosts.not_startable Hosts.in_docx Hosts.out_pdf (Hosts.boot Hosts.disk)
           "/usr/bin/soffice" (Hosts.at_spawn Hosts.not_startable) _ H eq_refl).
Defined.

(** ** The font check, away from Windows and across platforms *)

Lemma required_exists_iff (output : string) :
  existsb (fun font => PyStr.contains font output) REQUIRED_CHS_FONTS = true
  <-> exists font, In font REQUIRED_CHS_FONTS /\ occurs_in font output.
Proof.
  rewrite existsb_exists.
  split; intros (font & Hin & H); exists font; split; auto; now apply contains_iff.
Qed.

(** Away from Windows the check returns [True] exactly when [fc-list] ran
    and a required family occurs in what it printed. *)
Theorem unix_font_check_iff (w : World) (s : state) :
  is_windows w = false ->
  (fst (check_fonts_installed w s) = Returned true
   <-> exists output font,
       check_output w fc_list_argv = Returned output
       /\ In font REQUIRED_CHS_FONTS /\ occurs_in font output).
Proof.
  intros Hw. rewrite check_fonts_unix by exact Hw. cbn [fst].
  destruct (check_output w fc_list_argv) as [output|e0].
  - destruct (existsb _ REQUIRED_CHS_FONTS) eqn:E.
    + split; [intros _|reflexivity].
      apply required_exists_iff in E as (font & Hin & Hocc). eauto.
    + split; [discriminate|].
      intros (output' & font & [= <-] & Hin & Hocc).
      assert (existsb (fun font => PyStr.contains font output) REQUIRED_CHS_FONTS = true)
        by (apply required_exists_iff; eauto).
      congruence.
  - split; [discriminate|]. intros (output & font & H & _). discriminate.
Qed.

Lemma unix_font_check_iff_witness :
  is_windows Hosts.converts = false
  /\ (fst (check_fonts_installed Hosts.converts (Hosts.boot Hosts.disk)) = Returned true
      <-> exists output font,
          check_output Hosts.converts fc_list_argv = Returned output
          /\ In font REQUIRED_CHS_FONTS /\ occurs_in font output).
Proof.
  split; [reflexivity|].
  exact (unix_font_check_iff Hosts.converts (Hosts.boot Hosts.disk) eq_refl).
Defined.

(** The text of a failing font check depends on the platform.  On Windows
    it is the missing-font message.  Elsewhere it always starts with the
    fontconfig diagnostic, followed by the text of what [fc-list] raised,
    or by the missing-font message when [fc-list] ran. *)
Theorem font_failure_text (w : World) (s : state) (e : exn) :
  fst (check_fonts_installed w s) = Raised e ->
  exn_class_of e = EnvironmentError
  /\ if is_windows w then exn_str e = missing_font_msg
     else exists cause,
         exn_str e = fontconfig_hint +:+ cause
         /\ match check_output w fc_list_argv with
            | Raised e0 => cause = exn_str e0
            | Returned _ => cause = missing_font_msg
            end.
Proof.
  destruct (is_windows w) eqn:Hw.
  - rewrite check_fonts_windows by exact Hw. cbn [fst].
    destruct (existsb _ REQUIRED_CHS_FONTS); [discriminate|].
    intros [= <-]. split; reflexivity.
  - rewrite check_fonts_unix by exact Hw. cbn [fst].
    destruct (check_output w fc_list_argv) as [output|e0].
    + destruct (existsb _ REQUIRED_CHS_FONTS); [discriminate|].
      intros [= <-]. split; [reflexivity|]. now exists missing_font_msg.
    + intros [= <-]. split; [reflexivity|]. now exists (exn_str e0).
Qed.

Lemma font_failure_text_witness :
  fst (check_fonts_installed Hosts.no_fc_list (Hosts.boot Hosts.disk))
  = Raised (Exn EnvironmentError
                (fontconfig_hint +:+ "[Errno 2] No such file or directory: 'fc-list'"))
  /\ exn_class_of
       (Exn EnvironmentError
            (fontconfig_hint +:+ "[Errno 2] No such file or directory: 'fc-list'"))
     = EnvironmentError
  /\ if is_windows Hosts.no_fc_list
     then exn_str (Exn EnvironmentError
                       (fontconfig_hint
                          +:+ "[Errno 2] No such file or directory: 'fc-list'"))
          = missing_font_msg
     else exists cause,
         exn_str (Exn EnvironmentError
                      (fontconfig_hint
                         +:+ "[Errno 2] No such file or directory: 'fc-list'"))
         = fontconfig_hint +:+ cause
         /\ match check_output Hosts.no_fc_list fc_list_argv with
            | Raised e0 => cause = exn_str e0
            | Returned _ => cause = missing_font_msg
            end.
Proof.
  assert (H : fst (check_fonts_installed Hosts.no_fc_list (Hosts.boot Hosts.disk))
              = Raised (Exn EnvironmentError
                            (fontconfig_hint
                               +:+ "[Errno 2] No such file or directory: 'fc-list'")))
    by (vm_compute; reflexivity).
  split; [exact H|].
  exact (font_failure_text Hosts.no_fc_list (Hosts.boot Hosts.disk) _ H).
Defined.

(** The font check leaves the file system alone and makes one call: it
    lists the font directory on Windows, where it starts no process, and
    starts [fc-list :lang=zh] with its output captured elsewhere. *)
Theorem font_check_footprint (w : World) (s : state) :
  fs (snd (check_fonts_installed w s)) = fs s
  /\ trace (snd (check_fonts_installed w s))
     = trace s ++ [if is_windows w
                   then EvGlob "C:\Windows\Fonts" "*.ttf"
                   else EvSpawn ["fc-list"; ":lang=zh"] PIPE INHERIT].
Proof.
  rewrite check_fonts_state. unfold font_probe. split; [reflexivity|].
  now destruct (is_windows w).
Qed.

(** ** A regular file in the way of the output directory *)

(** When [output_dir] names a regular file, the call raises
    [FileExistsError] in spite of [exist_ok]; the file system is left as it
    was and neither the font check nor the search nor a spawn takes
    place. *)
Theorem output_dir_is_a_file (w : World) (input_path output_dir : string)
        (s : state) :
  isfile (fs s) input_path = true ->
  isfile (fs s) output_dir = true ->
  isdir (fs s) output_dir = false ->
  exists msg,
    convert_file_to_pdf w input_path output_dir s
    = (Raised (Exn FileExistsError msg),
       {| fs := fs s;
          trace := trace s ++ [EvIsFile input_path; EvMakedirs output_dir true] |}).
Proof.
  intros Hin Hf Hd. eexists.
  rewrite (convert_makedirs_raises w input_path output_dir s
                                   (file_exists_error (is_windows w) output_dir) Hin).
  - unfold makedirs_left, makedirs_run, opening. now rewrite Hd, Hf.
  - unfold makedirs_fs, makedirs_run. now rewrite Hd, Hf.
Qed.

Lemma output_dir_is_a_file_witness :
  isfile (fs (Hosts.boot Hosts.out_is_a_file)) Hosts.in_docx = true
  /\ isfile (fs (Hosts.boot Hosts.out_is_a_file)) Hosts.out_pdf = true
  /\ isdir (fs (Hosts.boot Hosts.out_is_a_file)) Hosts.out_pdf = false
  /\ exists msg,
      convert_file_to_pdf Hosts.converts Hosts.in_docx Hosts.out_pdf
                          (Hosts.boot Hosts.out_is_a_file)
      = (Raised (Exn FileExistsError msg),
         {| fs := fs (Hosts.boot Hosts.out_is_a_file);
            trace := trace (Hosts.boot Hosts.out_is_a_file)
                       ++ [EvIsFile Hosts.in_docx; EvMakedirs Hosts.out_pdf true] |}).
Proof.
  split; [vm_compute; reflexivity|]. split; [vm_compute; reflexivity|].
  split; [vm_compute; reflexivity|].
  apply (output_dir_is_a_file Hosts.converts Hosts.in_docx Hosts.out_pdf
                              (Hosts.boot Hosts.out_is_a_file));
    vm_compute; reflexivity.
Defined.





(** ** The exceptions of a call *)

(** When a call raises, the exception is one of these: the
    [FileNotFoundError] of the test of the input; what [os.makedirs]
    raised; the [EnvironmentError] that the font check raised; a
    [ConvertToPdfError]; what [subprocess.run] raised when it was asked to
    start the executable; a [UnicodeDecodeError]. *)
Theorem convert_outcomes (w : World) (input_path output_dir : string)
        (s : state) (e : exn) :
  fst (convert_file_to_pdf w input_path output_dir s) = Raised e ->
  (isfile (fs s) input_path = false
   /\ e = Exn FileNotFoundError
              ("The input file " +:+ input_path +:+ " does not exist."))
  \/ makedirs_fs (is_windows w) output_dir true (fs s) = Raised e
  \/ (fst (check_fonts_installed w s) = Raised e
      /\ exn_class_of e = EnvironmentError)
  \/ exn_class_of e = ConvertToPdfError
  \/ (exists soffice_cmd,
        run w (soffice_argv input_path output_dir soffice_cmd) = Raised e)
  \/ exn_class_of e = UnicodeDecodeError.
Proof.
  destruct (isfile (fs s) input_path) eqn:Hin.
  2:{ rewrite convert_missing_input by exact Hin. intros [= <-]. left. now split. }
  destruct (makedirs_fs (is_windows w) output_dir true (fs s)) as [f1|e0] eqn:Hmk.
  2:{ rewrite (convert_makedirs_raises w input_path output_dir s e0 Hin Hmk).
      intros [= <-]. right. now left. }
  destruct (convert_tail_outcome w input_path output_dir s f1 Hin Hmk) as [-> _].
  destruct (fst (check_fonts_installed w s)) as [b|e0] eqn:Hfont.
  2:{ intros [= <-]. right. right. left. split; [reflexivity|].
      exact (check_fonts_raises_class w s e0 Hfont). }
  destruct (spec_search_order w f1) as [cmd|].
  2:{ intros [= <-]. right. right. right. now left. }
  unfold spawn_outcome, report.
  destruct (run w (soffice_argv input_path output_dir cmd)) as [p|e0] eqn:Hrun.
  2:{ intros [= <-]. do 4 right. left. now exists cmd. }
  destruct (negb (returncode p =? 0)%Z); [|discriminate].
  destruct (PyBytes.decode (stderr p)); intros [= <-].
  - right. right. right. now left.
  - do 5 right. reflexivity.
Qed.

Lemma convert_outcomes_witness :
  fst (convert_file_to_pdf Hosts.converts Hosts.in_docx Hosts.out_pdf
                           (Hosts.boot Hosts.read_only_disk))
  = Raised (Exn OSError "[Errno 30] Read-only file system: '/tmp/out'")
  /\ makedirs_fs (is_windows Hosts.converts) Hosts.out_pdf true
                 (fs (Hosts.boot Hosts.read_only_disk))
     = Raised (Exn OSError "[Errno 30] Read-only file system: '/tmp/out'").
Proof.
  assert (H : fst (convert_file_to_pdf Hosts.converts Hosts.in_docx
                                       Hosts.out_pdf (Hosts.boot Hosts.read_only_disk))
              = Raised (Exn OSError "[Errno 30] Read-only file system: '/tmp/out'"))
    by (vm_compute; reflexivity).
  split; [exact H|].
  destruct (convert_outcomes Hosts.converts Hosts.in_docx Hosts.out_pdf
                             (Hosts.boot Hosts.read_only_disk) _ H)
    as [[Hno _]|[Hmk|[[Hfont _]|[Hc|[[cmd Hrun]|Hc]]]]].
  - vm_compute in Hno. discriminate Hno.
  - exact Hmk.
  - vm_compute in Hfont. discriminate Hfont.
  - vm_compute in Hc. discriminate Hc.
  - vm_compute in Hrun. discriminate Hrun.
  - vm_compute in Hc. discriminate Hc.
Defined.

(** ** The error stream of the child *)

Lemma utf8_ok_ascii (l : list N) :
  Forall (fun b => (b < 128)%N) l -> PyBytes.utf8_ok l = true.
Proof.
  induction 1 as [|b l Hb _ IH]; [reflexivity|].
  simpl. apply N.ltb_lt in Hb. now rewrite Hb.
Qed.

Lemma decode_ascii (b : PyBytes.bytes) :
  Forall (fun c => (Byte.to_N c < 128)%N) b ->
  PyBytes.decode b = Some (string_of_list_byte b).
Proof.
  intros H. unfold PyBytes.decode. rewrite utf8_ok_ascii; [reflexivity|].
  induction H; constructor; assumption.
Qed.

(** When the child exits with a code other than zero and what it wrote to
    its error stream is ASCII (nothing at all included), the call raises a
    [ConvertToPdfError] whose text is [LibreOffice convert failed: ]
    followed by exactly that output. *)
Theorem ascii_stderr_is_reported (w : World) (input_path output_dir : string)
        (s : state) (soffice_cmd : string) (s3 : state) (p : CompletedProcess) :
  ready_to_spawn w input_path output_dir s soffice_cmd s3 ->
  run w (soffice_argv input_path output_dir soffice_cmd) = Returned p ->
  returncode p <> 0%Z ->
  Forall (fun c => (Byte.to_N c < 128)%N) (stderr p) ->
  fst (convert_file_to_pdf w input_path output_dir s)
  = Raised (Exn ConvertToPdfError
                ("LibreOffice convert failed: " +:+ string_of_list_byte (stderr p))).
Proof.
  intros Hready Hrun Hcode Hascii.
  rewrite (convert_spawns _ _ _ _ _ _ Hready), Hrun. cbn [fst].
  apply Z.eqb_neq in Hcode. rewrite Hcode, (decode_ascii _ Hascii). reflexivity.
Qed.

Lemma ascii_stderr_is_reported_witness :
  ready_to_spawn Hosts.bad_format Hosts.in_docx Hosts.out_pdf
                 (Hosts.boot Hosts.disk) "/usr/bin/soffice"
                 (Hosts.at_spawn Hosts.bad_format)
  /\ run Hosts.bad_format (soffice_argv Hosts.in_docx Hosts.out_pdf "/usr/bin/soffice")
     = Returned (Hosts.completed 1 (PyBytes.encode "bad format"))
  /\ returncode (Hosts.completed 1 (PyBytes.encode "bad format")) <> 0%Z
  /\ Forall (fun c => (Byte.to_N c < 128)%N)
            (stderr (Hosts.completed 1 (PyBytes.encode "bad format")))
  /\ fst (convert_file_to_pdf Hosts.bad_format Hosts.in_docx Hosts.out_pdf
                              (Hosts.boot Hosts.disk))
     = Raised (Exn ConvertToPdfError
                   ("LibreOffice convert failed: "
                      +:+ string_of_list_byte
                            (stderr (Hosts.completed 1 (PyBytes.encode "bad format"))))).
Proof.
  assert (H : ready_to_spawn Hosts.bad_format Hosts.in_docx Hosts.out_pdf
                             (Hosts.boot Hosts.disk) "/usr/bin/soffice"
                             (Hosts.at_spawn Hosts.bad_format))
    by (example_ready Hosts.bad_format).
  assert (Hcode : returncode (Hosts.completed 1 (PyBytes.encode "bad format")) <> 0%Z)
    by discriminate.
  assert (Hascii : Forall (fun c => (Byte.to_N c < 128)%N)
                          (stderr (Hosts.completed 1 (PyBytes.encode "bad format"))))
    by (repeat constructor).
  split; [exact H|]. split; [reflexivity|]. split; [exact Hcode|].
  split; [exact Hascii|].
  exact (ascii_stderr_is_reported
           Hosts.bad_format Hosts.in_docx Hosts.out_pdf (Hosts.boot Hosts.disk)
           "/usr/bin/soffice" (Hosts.at_spawn Hosts.bad_format) _
           H eq_refl Hcode Hascii).
Defined.

(** In a run where the input exists, the font check returns and the
    executable is located, spawned and exits, the exit code decides.  With
    code zero the call returns, and the spawn is its last call: nothing is
    looked up afterwards.  With a code other than zero and an error stream
    that decodes as UTF-8, it raises a [ConvertToPdfError] whose text
    contains the decoded stream. *)
Theorem exit_code_decides (w : World) (input_path output_dir : string)
        (s : state) (soffice_cmd : string) (s3 : state) (p : CompletedProcess) :
  ready_to_spawn w input_path output_dir s soffice_cmd s3 ->
  run w (soffice_argv input_path output_dir soffice_cmd) = Returned p ->
  let r := convert_file_to_pdf w input_path output_dir s in
  let spawned := log (spawn_event input_path output_dir soffice_cmd) s3 in
  (returncode p = 0%Z -> r = (Returned tt, spawned))
  /\ (returncode p <> 0%Z ->
      forall text, PyBytes.decode (stderr p) = Some text ->
      exists msg, r = (Raised (Exn ConvertToPdfError msg), spawned)
                  /\ occurs_in text msg).
Proof.
  intros Hready Hrun r spawned. subst r spawned.
  rewrite (convert_spawns _ _ _ _ _ _ Hready), Hrun.
  split.
  - intros ->. reflexivity.
  - intros Hcode text Hdec.
    apply Z.eqb_neq in Hcode. rewrite Hcode, Hdec. cbn [negb].
    eexists. split; [reflexivity|].
    exists "LibreOffice convert failed: ", EmptyString.
    now rewrite append_empty_r.
Qed.

Lemma exit_code_decides_witness :
  ready_to_spawn Hosts.bad_format Hosts.in_docx Hosts.out_pdf
                 (Hosts.boot Hosts.disk) "/usr/bin/soffice"
                 (Hosts.at_spawn Hosts.bad_format)
  /\ run Hosts.bad_format
         (soffice_argv Hosts.in_docx Hosts.out_pdf "/usr/bin/soffice")
     = Returned (Hosts.completed 1 (PyBytes.encode "bad format"))
  /\ (returncode (Hosts.completed 1 (PyBytes.encode "bad format")) <> 0%Z ->
      forall text,
        PyBytes.decode (stderr (Hosts.completed 1 (PyBytes.encode "bad format")))
        = Some text ->
        exists msg,
          convert_file_to_pdf Hosts.bad_format Hosts.in_docx Hosts.out_pdf
                              (Hosts.boot Hosts.disk)
          = (Raised (Exn ConvertToPdfError msg),
             log (spawn_event Hosts.in_docx Hosts.out_pdf "/usr/bin/soffice")
                 (Hosts.at_spawn Hosts.bad_format))
          /\ occurs_in text msg).
Proof.
  assert (H : ready_to_spawn Hosts.bad_format Hosts.in_docx Hosts.out_pdf
                             (Hosts.boot Hosts.disk) "/usr/bin/soffice"
                             (Hosts.at_spawn Hosts.bad_format))
    by (example_ready Hosts.bad_format).
  split; [exact H|]. split; [reflexivity|].
  apply (exit_code_decides Hosts.bad_format Hosts.in_docx Hosts.out_pdf
                           (Hosts.boot Hosts.disk) "/usr/bin/soffice"
                           (Hosts.at_spawn Hosts.bad_format)
                           (Hosts.completed 1 (PyBytes.encode "bad format"))
                           H eq_refl).
Defined.

(** ** What the locator returns *)

Lemma WindowsPath_truthy (p : string) : PyStr.truthy (PyPath.WindowsPath p) = true.
Proof.
  unfold PyPath.WindowsPath. cbv zeta.
  match goal with |- context [if PyStr.truthy ?r then _ else _] =>
    destruct (PyStr.truthy r) eqn:E
  end; [exact E | reflexivity].
Qed.

Lemma div_truthy (p rel : string) : PyStr.truthy (PyPath.div p rel) = true.
Proof.
  unfold PyPath.div.
  destruct (PyPath.drive_only p || String.eqb p "\"); apply WindowsPath_truthy.
Qed.

Lemma candidates_truthy (w : World) :
  Forall (fun p => PyStr.truthy p = true) (spec_candidates w).
Proof.
  unfold spec_candidates. destruct (is_windows w).
  - unfold spec_windows_candidates.
    repeat (apply Forall_cons; split; [first [apply div_truthy | reflexivity]|]).
    constructor.
  - unfold spec_unix_candidates. repeat constructor.
Qed.

(** The path that the locator returns is never the empty string, whatever
    [shutil.which] and the environment hold. *)
Theorem located_path_not_empty (w : World) (s : state) (p : string) :
  fst (get_soffice_command w s) = Returned p -> p <> EmptyString.
Proof.
  rewrite get_soffice_command_run. cbn [fst]. unfold spec_search_order.
  intros H Hp. subst p.
  destruct (which w "soffice") as [q|] eqn:Hq; cbn [found_in_path] in H.
  - destruct (PyStr.truthy q) eqn:Ht.
    + injection H as ->. discriminate.
    + destruct (List.find _ _) eqn:Hf; [|discriminate]. injection H as ->.
      apply find_some in Hf as [Hin _].
      pose proof (candidates_truthy w) as Hall.
      rewrite List.Forall_forall in Hall. specialize (Hall _ Hin). discriminate.
  - destruct (List.find _ _) eqn:Hf; [|discriminate]. injection H as ->.
    apply find_some in Hf as [Hin _].
    pose proof (candidates_truthy w) as Hall.
    rewrite List.Forall_forall in Hall. specialize (Hall _ Hin). discriminate.
Qed.

Lemma located_path_not_empty_witness :
  fst (get_soffice_command Hosts.converts (Hosts.boot Hosts.disk))
  = Returned "/usr/bin/soffice"
  /\ "/usr/bin/soffice" <> EmptyString.
Proof.
  assert (H : fst (get_soffice_command Hosts.converts (Hosts.boot Hosts.disk))
              = Returned "/usr/bin/soffice")
    by (vm_compute; reflexivity).
  split; [exact H|].
  exact (located_path_not_empty Hosts.converts (Hosts.boot Hosts.disk) _ H).
Defined.

(** On Windows with neither [PROGRAMFILES] nor [PROGRAMFILES(X86)] set and
    nothing on the search path, the locator returns the first that exists
    of the two default Program Files places and the six drive roots, and
    raises the Windows [ConvertToPdfError] when none does. *)
Theorem windows_without_program_files_vars (w : World) (s : state) :
  is_windows w = true ->
  found_in_path (which w "soffice") = None ->
  environ w !! "PROGRAMFILES" = None ->
  environ w !! "PROGRAMFILES(X86)" = None ->
  fst (get_soffice_command w s)
  = match List.find (exists_ (fs s))
                    [ "C:\Program Files\LibreOffice\program\soffice.exe";
                      "C:\Program Files (x86)\LibreOffice\program\soffice.exe";
                      "C:\LibreOffice\program\soffice.exe";
                      "D:\LibreOffice\program\soffice.exe";
                      "E:\LibreOffice\program\soffice.exe";
                      "F:\LibreOffice\program\soffice.exe";
                      "G:\LibreOffice\program\soffice.exe";
                      "H:\LibreOffice\program\soffice.exe" ]
    with
    | Some p => Returned p
    | None => Raised (Exn ConvertToPdfError windows_not_found_msg)
    end.
Proof.
  intros Hw Hpath Hpf Hpf86.
  rewrite get_soffice_command_run. cbn [fst].
  unfold spec_search_order, spec_candidates, not_found_text.
  rewrite Hpath, Hw.
  unfold spec_windows_candidates, program_files, program_files_x86.
  rewrite Hpf, Hpf86.
  change (PyPath.div (PyPath.WindowsPath (default "C:/Program Files" None)) soffice_exe)
    with "C:\Program Files\LibreOffice\program\soffice.exe".
  change (PyPath.div (PyPath.WindowsPath (default "C:/Program Files (x86)" None))
                     soffice_exe)
    with "C:\Program Files (x86)\LibreOffice\program\soffice.exe".
  cbn [List.find].
  destruct (exists_ (fs s) "C:\Program Files\LibreOffice\program\soffice.exe");
    [reflexivity|].
  destruct (exists_ (fs s) "C:\Program Files (x86)\LibreOffice\program\soffice.exe");
    reflexivity.
Qed.

Lemma windows_without_program_files_vars_witness :
  is_windows Hosts.bare_windows = true
  /\ found_in_path (which Hosts.bare_windows "soffice") = None
  /\ environ Hosts.bare_windows !! "PROGRAMFILES" = None
  /\ environ Hosts.bare_windows !! "PROGRAMFILES(X86)" = None
  /\ fst (get_soffice_command Hosts.bare_windows (Hosts.boot Hosts.disk))
     = match List.find (exists_ (fs (Hosts.boot Hosts.disk)))
                       [ "C:\Program Files\LibreOffice\program\soffice.exe";
                         "C:\Program Files (x86)\LibreOffice\program\soffice.exe";
                         "C:\LibreOffice\program\soffice.exe";
                         "D:\LibreOffice\program\soffice.exe";
                         "E:\LibreOffice\program\soffice.exe";
                         "F:\LibreOffice\program\soffice.exe";
                         "G:\LibreOffice\program\soffice.exe";
                         "H:\LibreOffice\program\soffice.exe" ]
       with
       | Some p => Returned p
       | None => Raised (Exn ConvertToPdfError windows_not_found_msg)
       end.
Proof.
  split; [reflexivity|]. split; [reflexivity|].
  split; [vm_compute; reflexivity|]. split; [vm_compute; reflexivity|].
  apply (windows_without_program_files_vars Hosts.bare_windows (Hosts.boot Hosts.disk));
    [reflexivity | reflexivity | vm_compute; reflexivity | vm_compute; reflexivity].
Defined.

(** ** What a call changes *)

(** By its own calls (what the spawned programs write aside) a call never
    adds or removes a regular file and never removes a directory; the only
    directories it adds are [output_dir] and directories above it. *)
Theorem convert_footprint (w : World) (input_path output_dir : string) (s : state) :
  files (fs (snd (convert_file_to_pdf w input_path output_dir s))) = files (fs s)
  /\ (forall p,
        isdir (fs s) p = true ->
        isdir (fs (snd (convert_file_to_pdf w input_path output_dir s))) p = true)
  /\ (forall p,
        isdir (fs (snd (convert_file_to_pdf w input_path output_dir s))) p = true ->
        isdir (fs s) p = true \/ In p (chain_of (is_windows w) output_dir)).
Proof.
  destruct (isfile (fs s) input_path) eqn:Hin.
  2:{ rewrite (convert_missing_input w input_path output_dir s Hin). cbn [snd fs log].
      repeat split; auto. }
  assert (Hfs : fs (snd (convert_file_to_pdf w input_path output_dir s))
                = snd (makedirs_run (is_windows w) output_dir true (fs s))).
  { destruct (makedirs_fs (is_windows w) output_dir true (fs s)) as [f1|e] eqn:Hmk.
    - destruct (convert_tail_outcome w input_path output_dir s f1 Hin Hmk) as [_ ->].
      now rewrite (makedirs_fs_returned _ _ _ _ _ Hmk).
    - now rewrite (convert_makedirs_raises w input_path output_dir s e Hin Hmk). }
  rewrite Hfs.
  destruct (makedirs_run (is_windows w) output_dir true (fs s)) as [o f1] eqn:Hrun.
  exact (makedirs_run_frame _ _ _ _ _ _ Hrun).
Qed.

(** ** What a normal return tells *)

Lemma check_fonts_returned (w : World) (s : state) (b : bool) :
  fst (check_fonts_installed w s) = Returned b -> font_detected w.
Proof.
  unfold font_detected. destruct (is_windows w) eqn:Hw.
  - rewrite check_fonts_windows by exact Hw. cbn [fst].
    destruct (existsb _ REQUIRED_CHS_FONTS) eqn:E; [|discriminate]. intros _.
    apply windows_fonts_iff in E as (font & f & Hin & Hf & Hocc). eauto.
  - rewrite check_fonts_unix by exact Hw. cbn [fst].
    destruct (check_output w fc_list_argv) as [output|e]; [|discriminate].
    destruct (existsb _ REQUIRED_CHS_FONTS) eqn:E; [|discriminate]. intros _.
    apply required_exists_iff in E as (font & Hin & Hocc). eauto.
Qed.

(** A call that returns went all the way: the input was a regular file,
    [output_dir] is a directory afterwards, a required font was detected,
    and the executable that the search order gives was run as the last call
    and exited with code zero. *)
Theorem normal_return_means (w : World) (input_path output_dir : string) (s : state) :
  fst (convert_file_to_pdf w input_path output_dir s) = Returned tt ->
  let s' := snd (convert_file_to_pdf w input_path output_dir s) in
  isfile (fs s) input_path = true
  /\ isdir (fs s') output_dir = true
  /\ font_detected w
  /\ exists soffice_cmd p,
      spec_search_order w (fs s') = Some soffice_cmd
      /\ run w (soffice_argv input_path output_dir soffice_cmd) = Returned p
      /\ returncode p = 0%Z
      /\ exists before,
          trace s' = before ++ [spawn_event input_path output_dir soffice_cmd].
Proof.
  intros Hret s'. subst s'. revert Hret.
  destruct (isfile (fs s) input_path) eqn:Hin.
  2:{ now rewrite (convert_missing_input w input_path output_dir s Hin). }
  destruct (makedirs_fs (is_windows w) output_dir true (fs s)) as [f1|e] eqn:Hmk.
  2:{ now rewrite (convert_makedirs_raises w input_path output_dir s e Hin Hmk). }
  rewrite (convert_tail w input_path output_dir s f1 Hin Hmk).
  pose proof (makedirs_returns _ _ _ _ _ Hmk) as (Hdir & _).
  destruct (fst (check_fonts_installed w s)) as [b|e] eqn:Hfont; [|discriminate].
  apply check_fonts_returned in Hfont.
  destruct (spec_search_order w f1) as [cmd|] eqn:Hloc; [|discriminate].
  cbn [fst snd fs trace trace_add]. unfold spawn_outcome, report.
  destruct (run w (soffice_argv input_path output_dir cmd)) as [p|e] eqn:Hrun;
    [|discriminate].
  destruct (returncode p =? 0)%Z eqn:Hcode; cbn [negb].
  2:{ destruct (PyBytes.decode (stderr p)); discriminate. }
  intros _. apply Z.eqb_eq in Hcode.
  split; [reflexivity|]. split; [exact Hdir|]. split; [exact Hfont|].
  exists cmd, p. repeat split; try assumption.
  eexists. rewrite app_comm_cons, !app_assoc. reflexivity.
Qed.

Lemma normal_return_means_witness :
  fst (convert_file_to_pdf Hosts.converts Hosts.in_docx Hosts.out_pdf
                           (Hosts.boot Hosts.disk))
  = Returned tt
  /\ isfile (fs (Hosts.boot Hosts.disk)) Hosts.in_docx = true
  /\ isdir (fs (snd (convert_file_to_pdf Hosts.converts Hosts.in_docx Hosts.out_pdf
                                         (Hosts.boot Hosts.disk))))
           Hosts.out_pdf = true
  /\ font_detected Hosts.converts
  /\ exists soffice_cmd p,
      spec_search_order
        Hosts.converts
        (fs (snd (convert_file_to_pdf Hosts.converts Hosts.in_docx Hosts.out_pdf
                                      (Hosts.boot Hosts.disk))))
      = Some soffice_cmd
      /\ run Hosts.converts (soffice_argv Hosts.in_docx Hosts.out_pdf soffice_cmd)
         = Returned p
      /\ returncode p = 0%Z
      /\ exists before,
          trace (snd (convert_file_to_pdf Hosts.converts Hosts.in_docx Hosts.out_pdf
                                          (Hosts.boot Hosts.disk)))
          = before ++ [spawn_event Hosts.in_docx Hosts.out_pdf soffice_cmd].
Proof.
  assert (H : fst (convert_file_to_pdf Hosts.converts Hosts.in_docx Hosts.out_pdf
                                       (Hosts.boot Hosts.disk))
              = Returned tt)
    by (vm_compute; reflexivity).
  split; [exact H|].
  exact (normal_return_means Hosts.converts Hosts.in_docx Hosts.out_pdf
                             (Hosts.boot Hosts.disk) H).
Defined.
